(** * Geofence event processing: region classifier, zone-transition tracker
      and route-based taxi simulator

    A shallow embedding of [arcgis_geofence_service.py] and
    [us_taxi_simulation.py].

    Conventions of the embedding.
    - Python [float] values are the rationals [Q]: arithmetic is exact, so
      rounding, [nan] and signed zeros are outside the model.  The square
      root of [_classify_point_fallback] ([** 0.5]) is the real square
      root of [Stdlib.Reals], and [float('inf')] is a separate constructor.
    - Python [str] values are [string] (sequences of 8-bit characters);
      [lower] and [upper] act on the ASCII letters.
    - A [dict] is an association list in insertion order with unique keys.
    - Exceptions are the [Raise] results of a small error monad; what a
      raising call has already assigned is not kept.
    - [random.random()] and the remote services (the ArcGIS REST query, the
      Cosmos DB container) are oracles passed in as arguments.  Log lines
      and wall-clock timestamps of events are not modelled. *)

From Stdlib Require Import QArith Qreals Reals Lra Lqa.
From Stdlib Require Import ZArith Lia Bool List Ascii String.
Import ListNotations.

(* ================================================================== *)
(** ** Python values                                                    *)
(* ================================================================== *)

Module Py.

Local Open Scope string_scope.

(** *** Exceptions and the error monad *)

Inductive Exc : Type :=
| ZeroDivisionError
| IndexError
| Exception (msg : string).

Inductive Result (A : Type) : Type :=
| Ok (a : A)
| Raise (e : Exc).

Arguments Ok {A} a.
Arguments Raise {A} e.

Definition bind {A B : Type} (m : Result A) (k : A -> Result B) : Result B :=
  match m with
  | Ok a => k a
  | Raise e => Raise e
  end.

(** [try: m  except Exception: h] *)
Definition try_except {A : Type} (m : Result A) (h : Exc -> Result A) : Result A :=
  match m with
  | Ok a => Ok a
  | Raise e => h e
  end.

(** *** Strings *)

Definition is_upper (c : ascii) : bool :=
  let n := nat_of_ascii c in (65 <=? n)%nat && (n <=? 90)%nat.

Definition is_lower (c : ascii) : bool :=
  let n := nat_of_ascii c in (97 <=? n)%nat && (n <=? 122)%nat.

Definition lower_ascii (c : ascii) : ascii :=
  if is_upper c then ascii_of_nat (nat_of_ascii c + 32) else c.

Definition upper_ascii (c : ascii) : ascii :=
  if is_lower c then ascii_of_nat (nat_of_ascii c - 32) else c.

Fixpoint map_string (f : ascii -> ascii) (s : string) : string :=
  match s with
  | EmptyString => EmptyString
  | String c s' => String (f c) (map_string f s')
  end.

(** [s.lower()] and [s.upper()] *)
Definition lower (s : string) : string := map_string lower_ascii s.
Definition upper (s : string) : string := map_string upper_ascii s.

(** [s.replace(old, new)] for one-character [old] and [new] *)
Definition replace_char (old new : ascii) (s : string) : string :=
  map_string (fun c => if Ascii.eqb c old then new else c) s.

(** [needle in hay] *)
Fixpoint str_in (needle hay : string) : bool :=
  if prefix needle hay then true
  else match hay with
       | EmptyString => false
       | String _ hay' => str_in needle hay'
       end.

(** Truth value of an [Optional[str]]: [None] and [''] are falsy. *)
Definition truthy (s : option string) : bool :=
  match s with
  | None => false
  | Some EmptyString => false
  | Some (String _ _) => true
  end.

(** [a or b] on [Optional[str]] operands *)
Definition or_else (a b : option string) : option string :=
  if truthy a then a else b.

Definition opt_str_eqb (a b : option string) : bool :=
  match a, b with
  | None, None => true
  | Some x, Some y => String.eqb x y
  | _, _ => false
  end.

(** *** Dictionaries (insertion ordered) *)

Definition dict (V : Type) : Type := list (string * V).

Fixpoint dict_get {V : Type} (d : dict V) (k : string) : option V :=
  match d with
  | [] => None
  | (k', v) :: d' => if String.eqb k k' then Some v else dict_get d' k
  end.

(** [d[k] = v]: an existing key keeps its position, a new key goes last. *)
Fixpoint dict_set {V : Type} (d : dict V) (k : string) (v : V) : dict V :=
  match d with
  | [] => [(k, v)]
  | (k', v') :: d' =>
      if String.eqb k k' then (k', v) :: d' else (k', v') :: dict_set d' k v
  end.

Definition dict_keys {V : Type} (d : dict V) : list string := map fst d.
Definition dict_values {V : Type} (d : dict V) : list V := map snd d.

(** *** Lists *)

(** [l[i]] with Python's negative indices *)
Definition index {A : Type} (l : list A) (i : Z) : Result A :=
  let n := Z.of_nat (List.length l) in
  let j := if (i <? 0)%Z then (i + n)%Z else i in
  if ((0 <=? j) && (j <? n))%Z then
    match nth_error l (Z.to_nat j) with
    | Some x => Ok x
    | None => Raise IndexError
    end
  else Raise IndexError.

(** *** Floats *)

Local Open Scope Q_scope.

(** [a / b] *)
Definition div (a b : Q) : Result Q :=
  if Qeq_bool b 0 then Raise ZeroDivisionError else Ok (a / b).

(** [min(a, b)]: the first argument unless the second is strictly smaller *)
Definition min (a b : Q) : Q :=
  if Qlt_le_dec b a then b else a.

(** [random.uniform(a, b)], from the value [u] of [random.random()] *)
Definition uniform (a b u : Q) : Q := a + (b - a) * u.

End Py.

Notation "x <- m ;; k" := (Py.bind m (fun x => k))
  (at level 61, m at next level, right associativity).

(* ================================================================== *)
(** ** arcgis_geofence_service.py                                       *)
(* ================================================================== *)

Module Geofence.

Import Py.
Local Open Scope string_scope.
Local Open Scope Q_scope.

Record StateZone : Type := mkStateZone {
  id : string;
  name : string;
  state_abbr : string;
  description : string;
  center_lat : Q;
  center_lng : Q;
  geometry : option string
}.

(** The literal [fallback_states] of [_initialize_fallback_zones], in its
    declared order: abbreviation, name, lat, lng. *)
Definition fallback_states : list (string * (string * Q * Q)) :=
  [ ("al", ("Alabama", 32.318231, -86.902298));
    ("ak", ("Alaska", 63.588753, -154.493062));
    ("az", ("Arizona", 34.048928, -111.093731));
    ("ar", ("Arkansas", 35.20105, -91.831833));
    ("ca", ("California", 36.778261, -119.417932));
    ("co", ("Colorado", 39.550051, -105.782067));
    ("ct", ("Connecticut", 41.603221, -73.087749));
    ("de", ("Delaware", 38.910832, -75.52767));
    ("fl", ("Florida", 27.664827, -81.515754));
    ("ga", ("Georgia", 32.157435, -82.907123));
    ("hi", ("Hawaii", 19.898682, -155.665857));
    ("id", ("Idaho", 44.068202, -114.742041));
    ("il", ("Illinois", 40.633125, -89.398528));
    ("in", ("Indiana", 40.551217, -85.602364));
    ("ia", ("Iowa", 41.878003, -93.097702));
    ("ks", ("Kansas", 39.011902, -98.484246));
    ("ky", ("Kentucky", 37.839333, -84.270018));
    ("la", ("Louisiana", 30.984298, -91.962333));
    ("me", ("Maine", 45.253783, -69.445469));
    ("md", ("Maryland", 39.045755, -76.641271));
    ("ma", ("Massachusetts", 42.407211, -71.382437));
    ("mi", ("Michigan", 44.314844, -85.602364));
    ("mn", ("Minnesota", 46.729553, -94.6859));
    ("ms", ("Mississippi", 32.354668, -89.398528));
    ("mo", ("Missouri", 37.964253, -91.831833));
    ("mt", ("Montana", 46.879682, -110.362566));
    ("ne", ("Nebraska", 41.492537, -99.901813));
    ("nv", ("Nevada", 38.80261, -116.419389));
    ("nh", ("New Hampshire", 43.193852, -71.572395));
    ("nj", ("New Jersey", 40.058324, -74.405661));
    ("nm", ("New Mexico", 34.97273, -105.032363));
    ("ny", ("New York", 43.299428, -74.217933));
    ("nc", ("North Carolina", 35.759573, -79.0193));
    ("nd", ("North Dakota", 47.551493, -101.002012));
    ("oh", ("Ohio", 40.417287, -82.907123));
    ("ok", ("Oklahoma", 35.007752, -97.092877));
    ("or", ("Oregon", 43.804133, -120.554201));
    ("pa", ("Pennsylvania", 41.203322, -77.194525));
    ("ri", ("Rhode Island", 41.580095, -71.477429));
    ("sc", ("South Carolina", 33.836081, -81.163725));
    ("sd", ("South Dakota", 43.969515, -99.901813));
    ("tn", ("Tennessee", 35.517491, -86.580447));
    ("tx", ("Texas", 31.968599, -99.901813));
    ("ut", ("Utah", 39.32098, -111.093731));
    ("vt", ("Vermont", 44.558803, -72.577841));
    ("va", ("Virginia", 37.431573, -78.656894));
    ("wa", ("Washington", 47.751074, -120.740139));
    ("wv", ("West Virginia", 38.597626, -80.454903));
    ("wi", ("Wisconsin", 43.78444, -88.787868));
    ("wy", ("Wyoming", 43.075968, -107.290284));
    ("dc", ("District of Columbia", 38.907192, -77.036871)) ].

(** The zone object built for one entry of the table. *)
Definition make_zone (abbr : string) (data : string * Q * Q) : StateZone :=
  let '(data_name, lat, lng) := data in
  {| id := abbr;
     name := data_name;
     state_abbr := upper abbr;
     description := data_name ++ " state boundary";
     center_lat := lat;
     center_lng := lng;
     geometry := None |}.

(** One iteration of the loop of [_initialize_fallback_zones]: the same
    zone object is stored under the abbreviation and under the lowered,
    underscored name. *)
Definition register_zone (state_zones : dict StateZone)
    (entry : string * (string * Q * Q)) : dict StateZone :=
  let '(abbr, data) := entry in
  let zone := make_zone abbr data in
  let state_zones := dict_set state_zones abbr zone in
  dict_set state_zones (replace_char " " "_" (lower (name zone))) zone.

Definition _initialize_fallback_zones (table : list (string * (string * Q * Q)))
    : dict StateZone :=
  fold_left register_zone table [].

(** [self.state_zones] of the service, and the zones in declared order. *)
Definition state_zones : dict StateZone :=
  Eval vm_compute in _initialize_fallback_zones fallback_states.

Definition declared_zones : list StateZone :=
  map (fun entry => make_zone (fst entry) (snd entry)) fallback_states.

(** *** The nearest-centroid fallback *)

(** [((latitude - zone.center_lat) ** 2 + (longitude - zone.center_lng) ** 2)]:
    the squared planar distance. *)
Definition sq_distance (longitude latitude : Q) (zone : StateZone) : Q :=
  (latitude - center_lat zone) ^ 2 + (longitude - center_lng zone) ^ 2.

(** [... ** 0.5] *)
Definition distance (longitude latitude : Q) (zone : StateZone) : R :=
  sqrt (Q2R (sq_distance longitude latitude zone)).

(** A float that may be [float('inf')]. *)
Inductive Dist : Type :=
| Inf
| Fin (d : R).

Definition Dist_lt (a b : Dist) : Prop :=
  match a, b with
  | Fin x, Fin y => (x < y)%R
  | Fin _, Inf => True
  | Inf, _ => False
  end.

Definition Dist_lt_dec (a b : Dist) : {Dist_lt a b} + {~ Dist_lt a b}.
Proof.
  destruct a as [|x], b as [|y]; simpl.
  - right; tauto.
  - right; tauto.
  - left; exact I.
  - apply Rlt_dec.
Defined.

(** The body of the [for zone in self.state_zones.values()] loop, on the
    pair [(min_distance, closest_state)]. *)
Definition fallback_step (longitude latitude : Q)
    (acc : Dist * option string) (zone : StateZone) : Dist * option string :=
  let '(min_distance, closest_state) := acc in
  let distance := distance longitude latitude zone in
  if Dist_lt_dec (Fin distance) min_distance
  then (Fin distance, Some (name zone))
  else (min_distance, closest_state).

Definition fallback_scan (zones : list StateZone) (longitude latitude : Q)
    : Dist * option string :=
  fold_left (fallback_step longitude latitude) zones (Inf, None).

Definition _classify_point_fallback (zones : list StateZone)
    (longitude latitude : Q) : option string :=
  let '(min_distance, closest_state) := fallback_scan zones longitude latitude in
  if Dist_lt_dec min_distance (Fin 2) then closest_state else None.

(** *** An executable counterpart

    The same scan on squared distances, which stay rational: it compares
    [d²] where the source compares [d], and tests [d² < 4] where the
    source tests [d < 2.0].  [classify_sq_correct] below shows it returns
    what [_classify_point_fallback] returns. *)

Definition fallback_step_sq (longitude latitude : Q)
    (acc : option Q * option string) (zone : StateZone) : option Q * option string :=
  let '(min_sq, closest_state) := acc in
  let d := sq_distance longitude latitude zone in
  match min_sq with
  | None => (Some d, Some (name zone))
  | Some m => if Qlt_le_dec d m then (Some d, Some (name zone))
              else (min_sq, closest_state)
  end.

Definition classify_sq (zones : list StateZone) (longitude latitude : Q)
    : option string :=
  let '(min_sq, closest_state) :=
    fold_left (fallback_step_sq longitude latitude) zones (None, None) in
  match min_sq with
  | None => None
  | Some m => if Qlt_le_dec m 4 then closest_state else None
  end.

(** *** The real-time classifier

    The outcome of the REST query: [None] when the request, the JSON
    decoding or the access to the first feature raises; otherwise the
    [(state_name, state_abbr)] attributes of the returned features. *)
Definition RemoteOutcome : Type := option (list (option string * option string)).

Definition classify_point_realtime (states_layer : bool)
    (query : Q -> Q -> RemoteOutcome) (zones : list StateZone)
    (longitude latitude : Q) : option string :=
  if negb states_layer then _classify_point_fallback zones longitude latitude
  else
    match query longitude latitude with
    | Some ((state_name, state_abbr) :: _) => or_else state_name state_abbr
    | Some [] => _classify_point_fallback zones longitude latitude
    | None => _classify_point_fallback zones longitude latitude
    end.

End Geofence.

(* ================================================================== *)
(** ** us_taxi_simulation.py                                            *)
(* ================================================================== *)

Module Sim.

Import Py.
Local Open Scope string_scope.
Local Open Scope Q_scope.

Record RoutePoint : Type := mkRoutePoint {
  state_name : string;
  state_abbr : string;
  latitude : Q;
  longitude : Q;
  point_distance_km : Q      (* [RoutePoint.distance_km], default 0.0 *)
}.

Definition RP (state abbr : string) (lat lng : Q) : RoutePoint :=
  mkRoutePoint state abbr lat lng 0.

Record TaxiRoute : Type := mkTaxiRoute {
  pickup : RoutePoint;
  dropoff : RoutePoint;
  distance_km : Q
}.

Record TaxiState : Type := mkTaxiState {
  taxi_id : string;
  current_lat : Q;
  current_lng : Q;
  destination_lat : Q;
  destination_lng : Q;
  speed_kmh : Q;
  status : string;
  current_route : option TaxiRoute;
  route_progress : Q;
  last_update : Q;           (* a [datetime], in seconds *)
  current_zone : option string;
  previous_zone : option string;
  route_index : Z
}.

(** [self.taxi_routes] as written in [__init__]. *)
Definition taxi_routes : dict (list TaxiRoute) :=
  [
    ("taxi_a",
     [
       mkTaxiRoute (RP "Rhode Island" "RI" 41.580095 (-71.477429))
                   (RP "Massachusetts" "MA" 42.407211 (-71.382437)) 92.31;
       mkTaxiRoute (RP "Alabama" "AL" 32.318231 (-86.902298))
                   (RP "US Virgin Islands" "VI" 34.297878 (-83.824066)) 360.92;
       mkTaxiRoute (RP "Kentucky" "KY" 37.839333 (-84.270018))
                   (RP "Ohio" "OH" 40.417287 (-82.907123)) 309.81;
       mkTaxiRoute (RP "Illinois" "IL" 40.633125 (-89.398528))
                   (RP "Indiana" "IN" 40.551217 (-85.602364)) 320.64;
       mkTaxiRoute (RP "Vermont" "VT" 44.558803 (-72.577841))
                   (RP "New Hampshire" "NH" 43.193852 (-71.572395)) 171.84 ]);
    ("taxi_b",
     [
       mkTaxiRoute (RP "Tennessee" "TN" 35.517491 (-86.580447))
                   (RP "Alabama" "AL" 32.318231 (-86.902298)) 356.98;
       mkTaxiRoute (RP "Palau" "PW" 7.51498 134.58252)
                   (RP "Federated States of Micronesia" "FM" 6.9167 158.1833) 2604.04;
       mkTaxiRoute (RP "Colorado" "CO" 39.550051 (-105.782067))
                   (RP "New Mexico" "NM" 34.97273 (-105.032363)) 513.27;
       mkTaxiRoute (RP "North Carolina" "NC" 35.759573 (-79.0193))
                   (RP "Virginia" "VA" 37.431573 (-78.656894)) 188.71;
       mkTaxiRoute (RP "Alabama" "AL" 32.318231 (-86.902298))
                   (RP "Mississippi" "MS" 32.354668 (-89.398528)) 234.55 ]);
    ("taxi_c",
     [
       mkTaxiRoute (RP "Idaho" "ID" 44.068202 (-114.742041))
                   (RP "Montana" "MT" 46.879682 (-110.362566)) 462.84;
       mkTaxiRoute (RP "New Mexico" "NM" 34.97273 (-105.032363))
                   (RP "Texas" "TX" 31.968599 (-99.901813)) 581.28;
       mkTaxiRoute (RP "Alabama" "AL" 32.318231 (-86.902298))
                   (RP "US Virgin Islands" "VI" 34.297878 (-83.824066)) 360.92;
       mkTaxiRoute (RP "Iowa" "IA" 41.878003 (-93.097702))
                   (RP "Missouri" "MO" 37.964253 (-91.831833)) 448.36;
       mkTaxiRoute (RP "South Carolina" "SC" 33.836081 (-81.163725))
                   (RP "North Carolina" "NC" 35.759573 (-79.0193)) 289.96 ]);
    ("taxi_d",
     [
       mkTaxiRoute (RP "New York" "NY" 43.299428 (-74.217933))
                   (RP "Connecticut" "CT" 41.603221 (-73.087749)) 210.17;
       mkTaxiRoute (RP "Illinois" "IL" 40.633125 (-89.398528))
                   (RP "Iowa" "IA" 41.878003 (-93.097702)) 338.76;
       mkTaxiRoute (RP "Oregon" "OR" 43.804133 (-120.554201))
                   (RP "Idaho" "ID" 44.068202 (-114.742041)) 466.22;
       mkTaxiRoute (RP "Wyoming" "WY" 43.075968 (-107.290284))
                   (RP "Colorado" "CO" 39.550051 (-105.782067)) 411.78;
       mkTaxiRoute (RP "Washington" "WA" 47.751074 (-120.740139))
                   (RP "Oregon" "OR" 43.804133 (-120.554201)) 439.12 ]);
    ("taxi_e",
     [
       mkTaxiRoute (RP "Texas" "TX" 31.968599 (-99.901813))
                   (RP "New Mexico" "NM" 34.97273 (-105.032363)) 581.28;
       mkTaxiRoute (RP "Maine" "ME" 45.253783 (-69.445469))
                   (RP "New Hampshire" "NH" 43.193852 (-71.572395)) 284.92;
       mkTaxiRoute (RP "Florida" "FL" 27.664827 (-81.515754))
                   (RP "Georgia" "GA" 32.157435 (-82.907123)) 517.22;
       mkTaxiRoute (RP "Washington" "WA" 47.751074 (-120.740139))
                   (RP "Idaho" "ID" 44.068202 (-114.742041)) 618.58;
       mkTaxiRoute (RP "Connecticut" "CT" 41.603221 (-73.087749))
                   (RP "Rhode Island" "RI" 41.580095 (-71.477429)) 133.94 ]) ].

(** *** Field assignments *)

Definition set_route_progress (p : Q) (t : TaxiState) : TaxiState :=
  mkTaxiState (taxi_id t) (current_lat t) (current_lng t) (destination_lat t)
    (destination_lng t) (speed_kmh t) (status t) (current_route t) p
    (last_update t) (current_zone t) (previous_zone t) (route_index t).

Definition set_route_index (i : Z) (t : TaxiState) : TaxiState :=
  mkTaxiState (taxi_id t) (current_lat t) (current_lng t) (destination_lat t)
    (destination_lng t) (speed_kmh t) (status t) (current_route t)
    (route_progress t) (last_update t) (current_zone t) (previous_zone t) i.

Definition set_position (lat lng : Q) (t : TaxiState) : TaxiState :=
  mkTaxiState (taxi_id t) lat lng (destination_lat t)
    (destination_lng t) (speed_kmh t) (status t) (current_route t)
    (route_progress t) (last_update t) (current_zone t) (previous_zone t)
    (route_index t).

Definition set_last_update (now : Q) (t : TaxiState) : TaxiState :=
  mkTaxiState (taxi_id t) (current_lat t) (current_lng t) (destination_lat t)
    (destination_lng t) (speed_kmh t) (status t) (current_route t)
    (route_progress t) now (current_zone t) (previous_zone t) (route_index t).

Definition set_zones (previous current : option string) (t : TaxiState) : TaxiState :=
  mkTaxiState (taxi_id t) (current_lat t) (current_lng t) (destination_lat t)
    (destination_lng t) (speed_kmh t) (status t) (current_route t)
    (route_progress t) (last_update t) current previous (route_index t).

(** The seven assignments shared by both branches of
    [_complete_current_route]: route, position, destination, status, speed. *)
Definition start_route (route : TaxiRoute) (speed : Q) (t : TaxiState) : TaxiState :=
  mkTaxiState (taxi_id t)
    (latitude (pickup route)) (longitude (pickup route))
    (latitude (dropoff route)) (longitude (dropoff route))
    speed "pickup" (Some route)
    (route_progress t) (last_update t) (current_zone t) (previous_zone t)
    (route_index t).

(** *** Position update *)

Definition _interpolate_position (start_lat start_lng end_lat end_lng progress : Q)
    : Q * Q :=
  let lat := start_lat + (end_lat - start_lat) * progress in
  let lng := start_lng + (end_lng - start_lng) * progress in
  (lat, lng).

(** [_complete_current_route]; [u] is the value [random.random()] yields
    for the one [random.uniform(600, 1200)] of the taken branch. *)
Definition _complete_current_route (taxi_routes : dict (list TaxiRoute))
    (taxi : TaxiState) (u : Q) : Result TaxiState :=
  let taxi := set_route_progress 0 taxi in
  let taxi := set_route_index (route_index taxi + 1) taxi in
  let routes := match dict_get taxi_routes (taxi_id taxi) with
                | Some routes => routes
                | None => []
                end in
  if (route_index taxi <? Z.of_nat (List.length routes))%Z then
    next_route <- index routes (route_index taxi) ;;
    Ok (start_route next_route (uniform 600 1200 u) taxi)
  else
    let taxi := set_route_index 0 taxi in
    first_route <- index routes 0 ;;
    Ok (start_route first_route (uniform 600 1200 u) taxi).

(** Lines 275-302 of [_update_taxi_position], for a taxi whose
    [current_route] is [route]: the progress update and the interpolation. *)
Definition move_along_route (taxi : TaxiState) (route : TaxiRoute)
    (time_delta_seconds : Q) : Result TaxiState :=
  distance_per_second <- div (speed_kmh taxi) 3600 ;;
  let distance_to_move := distance_per_second * time_delta_seconds in
  let total_distance := distance_km route in
  progress_increment <-
    (if Qlt_le_dec 0 total_distance
     then div distance_to_move total_distance
     else Ok 0) ;;
  let taxi :=
    set_route_progress (min 1 (route_progress taxi + progress_increment)) taxi in
  let '(start_lat, start_lng, end_lat, end_lng) :=
    if String.eqb (status taxi) "pickup" then
      (latitude (pickup route), longitude (pickup route),
       latitude (dropoff route), longitude (dropoff route))
    else
      (current_lat taxi, current_lng taxi,
       destination_lat taxi, destination_lng taxi) in
  let '(lat, lng) :=
    _interpolate_position start_lat start_lng end_lat end_lng
      (route_progress taxi) in
  Ok (set_position lat lng taxi).

Definition _update_taxi_position (taxi_routes : dict (list TaxiRoute))
    (taxi : TaxiState) (time_delta_seconds : Q) (u : Q) : Result TaxiState :=
  match current_route taxi with
  | None => Ok taxi
  | Some route =>
      taxi <- move_along_route taxi route time_delta_seconds ;;
      if Qle_bool 1 (route_progress taxi)
      then _complete_current_route taxi_routes taxi u
      else Ok taxi
  end.

(** *** Zone transitions *)

Record TraceEvent : Type := mkTraceEvent {
  vehicle_id : string;
  zone_name : string;
  event_type : string;
  event_latitude : Q;
  event_longitude : Q
}.

(** What a tick does to the outside: the zone events it sends and the
    calls it makes to the sink with their outcome. *)
Inductive Effect : Type :=
| ZoneEvent (taxi : string) (kind : string) (zone : string)
| TraceStored (ev : TraceEvent) (doc_id : option string)
| TraceFailed (ev : TraceEvent) (e : Exc).

Section Tracker.

(** [arcgis_geofence_service.classify_point_realtime], longitude first. *)
Variable classify_point_realtime : Q -> Q -> option string.
(** The module flag and [cosmos_service.store_trace_event]. *)
Variable COSMOS_AVAILABLE : bool.
Variable store_trace_event : TraceEvent -> Result (option string).

Definition _store_trace_event (taxi : TaxiState) (event_type zone_name : string)
    : Result (list Effect) :=
  if negb COSMOS_AVAILABLE then Ok []
  else
    let ev := mkTraceEvent (taxi_id taxi) zone_name event_type
                (current_lat taxi) (current_lng taxi) in
    try_except
      (doc_id <- store_trace_event ev ;; Ok [TraceStored ev doc_id])
      (fun e => Ok [TraceFailed ev e]).

Definition _send_zone_event (taxi : TaxiState) (event_type zone_name : string)
    : Result (list Effect) :=
  Ok [ZoneEvent (taxi_id taxi) event_type zone_name].

(** One [if zone:] block of [_check_zone_transitions]. *)
Definition report_zone (taxi : TaxiState) (kind : string) (zone : option string)
    : Result (list Effect) :=
  match zone with
  | Some (String _ _ as zone_name) =>
      sent <- _send_zone_event taxi ("zone_" ++ kind) zone_name ;;
      stored <- _store_trace_event taxi kind zone_name ;;
      Ok (sent ++ stored)%list
  | _ => Ok []
  end.

Definition _check_zone_transitions (taxi : TaxiState)
    : Result (TaxiState * list Effect) :=
  let current_zone' :=
    classify_point_realtime (current_lng taxi) (current_lat taxi) in
  if negb (opt_str_eqb current_zone' (current_zone taxi)) then
    exited <- report_zone taxi "exit" (current_zone taxi) ;;
    entered <- report_zone taxi "entry" current_zone' ;;
    Ok (set_zones (current_zone taxi) current_zone' taxi,
        (exited ++ entered)%list)
  else Ok (taxi, []).

(** The body of the [for taxi in self.taxis.values()] loop. *)
Definition tick (taxi_routes : dict (list TaxiRoute)) (taxi : TaxiState)
    (current_time : Q) (u : Q) : Result (TaxiState * list Effect) :=
  let time_delta := current_time - last_update taxi in
  taxi <- _update_taxi_position taxi_routes taxi time_delta u ;;
  r <- _check_zone_transitions taxi ;;
  let '(taxi, effects) := r in
  Ok (set_last_update current_time taxi, effects).

(** One taxi of [_initialize_taxis]. *)
Definition initial_taxi (taxi_id : string) (first_route : TaxiRoute)
    (now u : Q) : TaxiState :=
  let lat := latitude (pickup first_route) in
  let lng := longitude (pickup first_route) in
  mkTaxiState taxi_id lat lng
    (latitude (dropoff first_route)) (longitude (dropoff first_route))
    (uniform 600 1200 u) "pickup" (Some first_route) 0 now
    (classify_point_realtime lng lat) None 0.

(** [_initialize_taxis]; [rng n] is the [n]-th value of [random.random()]. *)
Definition _initialize_taxis (taxi_routes : dict (list TaxiRoute))
    (now : Q) (rng : nat -> Q) : dict TaxiState :=
  fst (fold_left
         (fun (acc : dict TaxiState * nat) (item : string * list TaxiRoute) =>
            let '(taxis, n) := acc in
            let '(taxi_id, routes) := item in
            match routes with
            | first_route :: _ =>
                (dict_set taxis taxi_id (initial_taxi taxi_id first_route now (rng n)),
                 S n)
            | [] => (taxis, n)
            end)
         taxi_routes ([], O)).

End Tracker.

(** The events sent by a tick, as [(kind, zone)] pairs in order. *)
Definition zone_events (effects : list Effect) : list (string * string) :=
  flat_map (fun e => match e with
                     | ZoneEvent _ kind zone => [(kind, zone)]
                     | _ => []
                     end) effects.

(** *** Status queries *)

Record RouteStatus : Type := mkRouteStatus {
  pickup_state : string;
  pickup_coordinates : Q * Q;
  dropoff_state : string;
  dropoff_coordinates : Q * Q;
  status_distance_km : Q
}.

Record TaxiStatus : Type := mkTaxiStatus {
  status_taxi_id : string;
  status_current_position : Q * Q;
  status_destination : Q * Q;
  status_speed_kmh : Q;
  status_status : string;
  status_current_zone : option string;
  status_previous_zone : option string;
  status_route_progress : Q;
  status_current_route : option RouteStatus;
  status_route_index : Z;
  status_last_update : Q
}.

Definition status_of (taxi : TaxiState) : TaxiStatus :=
  mkTaxiStatus (taxi_id taxi)
    (current_lat taxi, current_lng taxi)
    (destination_lat taxi, destination_lng taxi)
    (speed_kmh taxi) (status taxi) (current_zone taxi) (previous_zone taxi)
    (route_progress taxi)
    (match current_route taxi with
     | Some r =>
         Some (mkRouteStatus
                 (state_name (pickup r))
                 (latitude (pickup r), longitude (pickup r))
                 (state_name (dropoff r))
                 (latitude (dropoff r), longitude (dropoff r))
                 (distance_km r))
     | None => None
     end)
    (route_index taxi) (last_update taxi).

Definition get_taxi_status (taxis : dict TaxiState) (taxi_id : string)
    : option TaxiStatus :=
  match dict_get taxis taxi_id with
  | None => None
  | Some taxi => Some (status_of taxi)
  end.

(** [zone.lower()] on an [Optional[str]]: [None] has no such method. *)
Definition lower_of (zone : option string) : Result string :=
  match zone with
  | Some z => Ok (lower z)
  | None => Raise (Exception "AttributeError")
  end.

(** The test of [search_taxis_by_zone]; [and] evaluates its right operand
    only when the left one is truthy. *)
Definition zone_matches (zone_name : string) (taxi : TaxiState) : Result bool :=
  if truthy (current_zone taxi) then
    z <- lower_of (current_zone taxi) ;;
    Ok (str_in (lower zone_name) z)
  else Ok false.

Definition search_taxis_by_zone (taxis : dict TaxiState) (zone_name : string)
    : Result (list (option TaxiStatus)) :=
  fold_left
    (fun (acc : Result (list (option TaxiStatus))) (taxi : TaxiState) =>
       taxis_in_zone <- acc ;;
       hit <- zone_matches zone_name taxi ;;
       if (hit : bool)
       then Ok (taxis_in_zone ++ [get_taxi_status taxis (taxi_id taxi)])%list
       else Ok taxis_in_zone)
    (dict_values taxis) (Ok []).

End Sim.

(* ================================================================== *)
(** ** Vocabulary of the statements                                     *)
(* ================================================================== *)

Module GeofenceSpec.

Import Geofence.

(** [z] is the first zone of [zones] at the minimum of [d]: every zone
    before it is strictly farther, every zone after it at least as far. *)
Definition FirstMin (d : StateZone -> R) (zones : list StateZone)
    (z : StateZone) : Prop :=
  exists before after,
    zones = before ++ z :: after /\
    (forall z', In z' before -> (d z < d z')%R) /\
    (forall z', In z' after -> (d z <= d z')%R).

(** What the scan holds after a pass over [zones]. *)
Inductive Scanned (d : StateZone -> R) : list StateZone -> Dist * option string -> Prop :=
| Scanned_none : Scanned d [] (Inf, None)
| Scanned_some zones z :
    FirstMin d zones z -> Scanned d zones (Fin (d z), Some (name z)).

(** The two accumulators of the real and of the rational scan agree. *)
Inductive SameAcc : Dist * option string -> option Q * option string -> Prop :=
| SameAcc_inf c : SameAcc (Inf, c) (None, c)
| SameAcc_fin q c : (0 <= q)%Q -> SameAcc (Fin (sqrt (Q2R q)), c) (Some q, c).

End GeofenceSpec.

Module SimSpec.

Import Py Sim.
Local Open Scope string_scope.
Local Open Scope Q_scope.

(** The routes assigned to a taxi: [self.taxi_routes.get(taxi.taxi_id, [])]. *)
Definition routes_of (table : dict (list TaxiRoute)) (taxi : TaxiState)
    : list TaxiRoute :=
  match dict_get table (taxi_id taxi) with
  | Some routes => routes
  | None => []
  end.

Definition route_count (table : dict (list TaxiRoute)) (taxi : TaxiState) : Z :=
  Z.of_nat (List.length (routes_of table taxi)).

(** The invariant of the data model: the taxi is on a route, its progress
    is a fraction, it does not move backwards and its route index points
    into its route list. *)
Record WellFormed (table : dict (list TaxiRoute)) (taxi : TaxiState) : Prop := {
  wf_route : current_route taxi <> None;
  wf_progress_lo : 0 <= route_progress taxi;
  wf_progress_hi : route_progress taxi <= 1;
  wf_speed : 0 <= speed_kmh taxi;
  wf_index : (0 <= route_index taxi < route_count table taxi)%Z
}.

(** A tick input: the elapsed seconds and the value of [random.random()]. *)
Definition valid_tick (tk : Q * Q) : Prop :=
  0 <= fst tk /\ 0 <= snd tk /\ snd tk < 1.

(** Successive calls of [_update_taxi_position] on one taxi. *)
Fixpoint run_updates (table : dict (list TaxiRoute)) (taxi : TaxiState)
    (ticks : list (Q * Q)) : Result TaxiState :=
  match ticks with
  | [] => Ok taxi
  | (dt, u) :: rest =>
      taxi' <- _update_taxi_position table taxi dt u ;;
      run_updates table taxi' rest
  end.

(** Successive calls of [_complete_current_route] on one taxi. *)
Fixpoint complete_routes (table : dict (list TaxiRoute)) (taxi : TaxiState)
    (draws : list Q) : Result TaxiState :=
  match draws with
  | [] => Ok taxi
  | u :: rest =>
      taxi' <- _complete_current_route table taxi u ;;
      complete_routes table taxi' rest
  end.

(** The fraction of the route covered in [dt] seconds. *)
Definition increment (taxi : TaxiState) (route : TaxiRoute) (dt : Q) : Q :=
  if Qlt_le_dec 0 (distance_km route)
  then speed_kmh taxi / 3600 * dt / distance_km route
  else 0.

(** The taxi after the progress update and the interpolation. *)
Definition moved (taxi : TaxiState) (route : TaxiRoute) (dt : Q) : TaxiState :=
  let p := min 1 (route_progress taxi + increment taxi route dt) in
  if String.eqb (status taxi) "pickup" then
    set_position
      (latitude (pickup route)
       + (latitude (dropoff route) - latitude (pickup route)) * p)
      (longitude (pickup route)
       + (longitude (dropoff route) - longitude (pickup route)) * p)
      (set_route_progress p taxi)
  else
    set_position
      (current_lat taxi + (destination_lat taxi - current_lat taxi) * p)
      (current_lng taxi + (destination_lng taxi - current_lng taxi) * p)
      (set_route_progress p taxi).

(** The taxi at the start of route [next], at index [i]. *)
Definition restarted (taxi : TaxiState) (i : Z) (next : TaxiRoute) (u : Q)
    : TaxiState :=
  start_route next (uniform 600 1200 u)
    (set_route_index i (set_route_progress 0 taxi)).

(** The events of a change from zone [a] to zone [b]: an exit for a
    non-empty [a], then an entry for a non-empty [b]. *)
Definition exit_of (a : option string) : list (string * string) :=
  match a with
  | Some z => if truthy a then [("zone_exit", z)] else []
  | None => []
  end.

Definition entry_of (b : option string) : list (string * string) :=
  match b with
  | Some z => if truthy b then [("zone_entry", z)] else []
  | None => []
  end.

(** The events of one run of the tracker, from the remembered zone [a]
    and the new classification [b]. *)
Definition transition_events (a b : option string) : list (string * string) :=
  if opt_str_eqb b a then [] else (exit_of a ++ entry_of b)%list.

(** A taxi dictionary as [_initialize_taxis] builds it: every taxi is
    stored once, under its own identifier. *)
Definition Consistent (taxis : dict TaxiState) : Prop :=
  NoDup (dict_keys taxis) /\
  forall k taxi, In (k, taxi) taxis -> taxi_id taxi = k.

(** [needle] occurs in [hay]. *)
Definition Substring (needle hay : string) : Prop :=
  exists pre post, hay = pre ++ needle ++ post.

(** The test of the search as a boolean. *)
Definition zone_hit (zone_name : string) (taxi : TaxiState) : bool :=
  match current_zone taxi with
  | Some z => truthy (Some z) && str_in (lower zone_name) (lower z)
  | None => false
  end.

(** The taxi's zone is a non-empty string that contains the query, letter
    case ignored. *)
Definition InZone (zone_name : string) (taxi : TaxiState) : Prop :=
  exists z, current_zone taxi = Some z /\ z <> "" /\
            Substring (lower zone_name) (lower z).

End SimSpec.

Module Examples.

Import Py Sim.
Local Open Scope string_scope.
Local Open Scope Q_scope.


(** Its executable counterpart. *)
Definition offline_classifier_sq : Q -> Q -> option string :=
  Geofence.classify_sq (dict_values Geofence.state_zones).

Definition rhode_island_to_massachusetts : TaxiRoute :=
  mkTaxiRoute (RP "Rhode Island" "RI" 41.580095 (-71.477429))
              (RP "Massachusetts" "MA" 42.407211 (-71.382437)) 92.31.

(** [taxi_a] as [_initialize_taxis] creates it at time 0 when
    [random.random()] yields 0: at its first pickup, at 600 km/h. *)
Definition taxi_a (classify : Q -> Q -> option string) : TaxiState :=
  initial_taxi classify "taxi_a" rhode_island_to_massachusetts 0 0.

(** A taxi that has no route. *)
Definition parked_taxi : TaxiState :=
  mkTaxiState "taxi_p" 40 (-75) 40 (-75) 600 "idle" None 0.5 0
    (Some "Pennsylvania") None 0.

(** A route list that starts with a route of length zero. *)
Definition standstill : TaxiRoute :=
  mkTaxiRoute (RP "Ohio" "OH" 40.417287 (-82.907123))
              (RP "Ohio" "OH" 40.417287 (-82.907123)) 0.

Definition standstill_routes : dict (list TaxiRoute) :=
  [("taxi_s", [standstill; rhode_island_to_massachusetts])].

Definition standstill_taxi : TaxiState :=
  initial_taxi offline_classifier_sq "taxi_s" standstill 0 0.

(** A taxi whose zone is the empty string, as the remote query can
    report it ([state_name or state_abbr] with both attributes empty). *)
Definition unnamed_zone_taxi : TaxiState :=
  mkTaxiState "taxi_u" 40 (-75) 41 (-75) 600 "pickup"
    (Some rhode_island_to_massachusetts) 0 0 (Some "") (Some "Ohio") 0.

(** A taxi just teleported to the Alabama pickup, still remembered in
    Rhode Island. *)
Definition arrived_taxi : TaxiState :=
  mkTaxiState "taxi_a" 32.318231 (-86.902298) 34.297878 (-83.824066) 900
    "pickup" None 0 0 (Some "Rhode Island") None 1.

(** Two sinks: one that stores, one that always raises. *)
Definition storing_sink (ev : TraceEvent) : Result (option string) :=
  Ok (Some ("trace_" ++ vehicle_id ev ++ "_" ++ event_type ev)).

Definition failing_sink (ev : TraceEvent) : Result (option string) :=
  Raise (Exception "container unavailable").

End Examples.

(* ================================================================== *)
(** ** Further functions of the two services                            *)
(* ================================================================== *)

Module GeofenceQueries.

Import Py Geofence.
Local Open Scope string_scope.

(** [get_zone_by_id]: the key is lowered before the look-up. *)
Definition get_zone_by_id (state_zones : dict StateZone) (zone_id : string)
    : option StateZone :=
  dict_get state_zones (lower zone_id).

(** [zone.id not in seen_ids] *)
Definition seen (zone_id : string) (seen_ids : list string) : bool :=
  existsb (String.eqb zone_id) seen_ids.

(** The loop body of [get_all_zones] on [(seen_ids, unique_zones)]. *)
Definition unique_step (acc : list string * list StateZone) (zone : StateZone)
    : list string * list StateZone :=
  let '(seen_ids, unique_zones) := acc in
  if negb (seen (id zone) seen_ids)
  then (id zone :: seen_ids, (unique_zones ++ [zone])%list)
  else (seen_ids, unique_zones).

Definition get_all_zones (state_zones : dict StateZone) : list StateZone :=
  snd (fold_left unique_step (dict_values state_zones) ([], [])).

(** The zone identifier the location views derive from a state name:
    [state.lower().replace(' ', '_')]. *)
Definition zone_id_of (state : string) : string :=
  replace_char " " "_" (lower state).

(** A test of the absence of duplicates among keys. *)
Fixpoint nodupb (l : list string) : bool :=
  match l with
  | [] => true
  | x :: r => negb (existsb (String.eqb x) r) && nodupb r
  end.

(** The zone object of an entry of the table. *)
Definition zone_of (entry : string * (string * Q * Q)) : StateZone :=
  make_zone (fst entry) (snd entry).

(** The two dictionary entries an entry of the table gives rise to. *)
Definition registered (entry : string * (string * Q * Q)) : dict StateZone :=
  [(fst entry, zone_of entry); (zone_id_of (name (zone_of entry)), zone_of entry)].

(** The two keys under which [_initialize_fallback_zones] stores an entry. *)
Definition entry_keys (entry : string * (string * Q * Q)) : list string :=
  [fst entry; zone_id_of (name (make_zone (fst entry) (snd entry)))].

End GeofenceQueries.

Module Cosmos.

Import Py.
Local Open Scope string_scope.

(** The document [store_trace_event] writes. *)
Record TraceDocument : Type := mkTraceDocument {
  doc_id : string;
  doc_vehicle_id : string;
  doc_zone_name : string;
  doc_event_type : string;
  doc_trace_type : string;
  doc_latitude : Q;
  doc_longitude : Q;
  doc_timestamp : string;
  doc_created_at : string
}.

Section Container.

(** [self.container.create_item] and the readings of the clock: the ISO
    time used when no timestamp is given, the milliseconds of the
    identifier and the ISO time of [created_at]. *)
Variable create_item : TraceDocument -> Result unit.
Variables now_iso now_ms created_iso : string.

Definition trace_document (vehicle_id zone_name event_type : string)
    (latitude longitude : Q) (timestamp : option string) : TraceDocument :=
  let timestamp := match timestamp with
                   | None => now_iso
                   | Some t => t
                   end in
  let event_id := "trace_" ++ vehicle_id ++ "_" ++ event_type ++ "_" ++ now_ms in
  mkTraceDocument event_id vehicle_id zone_name ("zone_" ++ event_type)
    event_type latitude longitude timestamp created_iso.

(** [CosmosDBService.store_trace_event] *)
Definition store_trace_event (vehicle_id zone_name event_type : string)
    (latitude longitude : Q) (timestamp : option string)
    : Result (option string) :=
  try_except
    (let document := trace_document vehicle_id zone_name event_type
                       latitude longitude timestamp in
     _ <- create_item document ;;
     Ok (Some (doc_id document)))
    (fun e => Ok None).

(** The call of [USTaxiSimulation._store_trace_event], which always passes
    a timestamp. *)
Definition sink (call_iso : string) (ev : Sim.TraceEvent)
    : Result (option string) :=
  store_trace_event (Sim.vehicle_id ev) (Sim.zone_name ev) (Sim.event_type ev)
    (Sim.event_latitude ev) (Sim.event_longitude ev) (Some call_iso).

End Container.

(** One entry of [formatted_events] in the view [get_trace_events]. *)
Record FormattedEvent : Type := mkFormattedEvent {
  fmt_id : string;
  fmt_taxi_id : string;
  fmt_zone : string;
  fmt_type : string;
  fmt_timestamp : string;
  fmt_latitude : Q;
  fmt_longitude : Q
}.

Definition format_trace_event (event : TraceDocument) : FormattedEvent :=
  mkFormattedEvent (doc_id event) (upper (doc_vehicle_id event))
    (doc_zone_name event)
    (if str_in "entry" (doc_event_type event) then "entry" else "exit")
    (doc_timestamp event) (doc_latitude event) (doc_longitude event).

End Cosmos.

Module SimLoop.

Import Py Sim.
Local Open Scope string_scope.
Local Open Scope Q_scope.

(** [get_all_taxis_status]: a dictionary built key by key. *)
Definition get_all_taxis_status (taxis : dict TaxiState)
    : dict (option TaxiStatus) :=
  fold_left
    (fun (acc : dict (option TaxiStatus)) (taxi_id : string) =>
       dict_set acc taxi_id (get_taxi_status taxis taxi_id))
    (dict_keys taxis) [].

Section Loop.

Variable classify_point_realtime : Q -> Q -> option string.
Variable COSMOS_AVAILABLE : bool.
Variable store_trace_event : TraceEvent -> Result (option string).
Variable taxi_routes : dict (list TaxiRoute).

(** One pass of the [for] loop of [_simulation_loop] over
    [self.taxis.values()], from the [n]-th taxi on.  Every taxi is ticked
    with the same [current_time]; [draw n] is what [random.random()]
    yields during the tick of the [n]-th taxi.  The taxis are updated in
    place, so the dictionary keeps its keys. *)
Fixpoint pass_from (n : nat) (taxis : dict TaxiState) (current_time : Q)
    (draw : nat -> Q) : Result (dict TaxiState * list Effect) :=
  match taxis with
  | [] => Ok ([], [])
  | (key, taxi) :: rest =>
      r <- tick classify_point_realtime COSMOS_AVAILABLE store_trace_event
             taxi_routes taxi current_time (draw n) ;;
      let '(taxi', effects) := r in
      r' <- pass_from (S n) rest current_time draw ;;
      let '(rest', effects') := r' in
      Ok ((key, taxi') :: rest', (effects ++ effects')%list)
  end.

Definition simulation_pass (taxis : dict TaxiState) (current_time : Q)
    (draw : nat -> Q) : Result (dict TaxiState * list Effect) :=
  pass_from O taxis current_time draw.

End Loop.

End SimLoop.

Module Views.

Import Py.
Local Open Scope string_scope.
Local Open Scope Q_scope.

(** The values of a decoded JSON payload; [JNull] is Python's [None]. *)
#[warnings="-register-all"] Inductive Json : Type :=
| JNull
| JBool (b : bool)
| JNum (q : Q)
| JStr (s : string)
| JList (items : list Json)
| JObj (fields : list (string * Json)).






(** An [Optional[str]] as a Python value. *)
Definition of_state (state : option string) : Json :=
  match state with
  | Some s => JStr s
  | None => JNull
  end.



Section LocationEvent.

(** [arcgis_geofence_service.classify_point_realtime], the reading of a
    number by [float] from a text ([None] when [float] rejects it), and
    [cosmos_service.get_vehicle_events(vehicle_id, limit=1)]. *)
Variable classify_point_realtime : Q -> Q -> option string.
Variable parse_float : string -> option Q.
Variable get_vehicle_events : Json -> Result (list (dict Json)).











End LocationEvent.

(** *** The search view *)

Section Search.

(** The characters that [str.strip()] removes. *)
Variable is_space : ascii -> bool.

Fixpoint lstrip (s : string) : string :=
  match s with
  | EmptyString => EmptyString
  | String c s' => if is_space c then lstrip s' else s
  end.

Fixpoint rstrip (s : string) : string :=
  match s with
  | EmptyString => EmptyString
  | String c s' =>
      match rstrip s' with
      | EmptyString => if is_space c then EmptyString else String c EmptyString
      | String _ _ as rest => String c rest
      end
  end.

(** [s.strip()] *)
Definition strip (s : string) : string := rstrip (lstrip s).

Inductive SearchResponse : Type :=
| SearchFound (zone : string) (taxis_found : nat)
    (taxis : list (option Sim.TaxiStatus))
| SearchError (status : Z) (message : string).

(** The view [search_taxis_by_zone] on the value of the [zone] parameter
    of the query string (the empty string when it is absent). *)
Definition search_taxis_by_zone (taxis : dict Sim.TaxiState) (zone : string)
    : SearchResponse :=
  let zone_name := strip zone in
  if String.eqb zone_name "" then SearchError 400 "Zone parameter is required"
  else
    match Sim.search_taxis_by_zone taxis zone_name with
    | Ok taxis_in_zone =>
        SearchFound zone_name (List.length taxis_in_zone) taxis_in_zone
    | Raise _ => SearchError 500 "Internal server error"
    end.

End Search.

End Views.

Module SimLoopSpec.

Import Py Sim SimSpec.
Local Open Scope string_scope.
Local Open Scope Q_scope.

(** The taxi is where its record says: its current route is the one at
    [route_index] in its list, it is in the ['pickup'] phase, it heads for
    the dropoff of that route and it stands on the straight line from
    pickup to dropoff at the fraction [route_progress]. *)
Definition OnRoute (table : dict (list TaxiRoute)) (taxi : TaxiState) : Prop :=
  exists route,
    current_route taxi = Some route /\
    index (routes_of table taxi) (route_index taxi) = Ok route /\
    status taxi = "pickup" /\
    destination_lat taxi = latitude (dropoff route) /\
    destination_lng taxi = longitude (dropoff route) /\
    current_lat taxi
    == latitude (pickup route)
       + (latitude (dropoff route) - latitude (pickup route)) * route_progress taxi /\
    current_lng taxi
    == longitude (pickup route)
       + (longitude (dropoff route) - longitude (pickup route)) * route_progress taxi.

(** [x] lies between [a] and [b], whichever is larger. *)
Definition Between (a b x : Q) : Prop :=
  (a <= x /\ x <= b) \/ (b <= x /\ x <= a).

(** The loop body of [_initialize_taxis] on [(self.taxis, n)], where [n]
    counts the calls of [random.random()] so far. *)
Definition init_step (classify : Q -> Q -> option string) (now : Q) (rng : nat -> Q)
    (acc : dict TaxiState * nat) (item : string * list TaxiRoute)
    : dict TaxiState * nat :=
  let '(taxis, n) := acc in
  let '(taxi_id, routes) := item in
  match routes with
  | first_route :: _ =>
      (dict_set taxis taxi_id (initial_taxi classify taxi_id first_route now (rng n)),
       S n)
  | [] => (taxis, n)
  end.

(** The entries of the route table that have a route. *)
Definition has_route (item : string * list TaxiRoute) : bool :=
  match snd item with
  | [] => false
  | _ :: _ => true
  end.

End SimLoopSpec.

(* ================================================================== *)
(** ** Properties of the Python values                                  *)
(* ================================================================== *)

Module PyFacts.

Import Py.
Local Open Scope string_scope.

Lemma opt_str_eqb_eq (a b : option string) :
  opt_str_eqb a b = true <-> a = b.
Proof.
  destruct a as [x|], b as [y|]; simpl; try (split; congruence).
  rewrite String.eqb_eq. split; congruence.
Qed.

Lemma opt_str_eqb_neq (a b : option string) :
  opt_str_eqb a b = false <-> a <> b.
Proof.
  rewrite <- opt_str_eqb_eq. destruct (opt_str_eqb a b); split; congruence.
Qed.

Lemma truthy_some (s : option string) :
  truthy s = true <-> exists z, s = Some z /\ z <> "".
Proof.
  destruct s as [[|c s]|]; simpl; split; try congruence.
  - intros (z & H & Hz). congruence.
  - intros _. eexists; split; [reflexivity | discriminate].
  - intros (z & H & _). discriminate.
Qed.

Lemma prefix_app (n h : string) :
  prefix n h = true <-> exists post, h = n ++ post.
Proof.
  revert h. induction n as [|c n IH]; intros h.
  - split; [intros _; now exists h | intros _; destruct h; reflexivity].
  - destruct h as [|c' h]; simpl.
    + split; [discriminate | intros (post & H); discriminate].
    + destruct (ascii_dec c c') as [->|Hc].
      * rewrite IH. split; intros (post & H); exists post; congruence.
      * split; [discriminate | intros (post & H); congruence].
Qed.

Lemma str_in_eq (n h : string) :
  str_in n h =
  if prefix n h then true
  else match h with
       | EmptyString => false
       | String _ h' => str_in n h'
       end.
Proof. destruct h; reflexivity. Qed.

(** [needle in hay] holds exactly when [hay] splits around [needle]. *)
Lemma str_in_spec (n h : string) :
  str_in n h = true <-> exists pre post, h = pre ++ n ++ post.
Proof.
  induction h as [|c h IH]; rewrite str_in_eq.
  - destruct (prefix n "") eqn:E.
    + split; [intros _ | reflexivity].
      apply prefix_app in E. destruct E as (post & E). now exists "", post.
    + split; [discriminate|]. intros (pre & post & H).
      destruct pre; [|discriminate]. simpl in H.
      assert (prefix n "" = true) by (apply prefix_app; now exists post).
      congruence.
  - destruct (prefix n (String c h)) eqn:E.
    + split; [intros _ | reflexivity].
      apply prefix_app in E. destruct E as (post & E). now exists "", post.
    + rewrite IH. split.
      * intros (pre & post & H). exists (String c pre), post. simpl. now rewrite H.
      * intros (pre & post & H). destruct pre as [|c' pre].
        -- simpl in H.
           assert (prefix n (String c h) = true) by (apply prefix_app; now exists post).
           congruence.
        -- simpl in H. injection H as _ H. now exists pre, post.
Qed.

Lemma index_in_range {A : Type} (l : list A) (i : Z) :
  (0 <= i < Z.of_nat (List.length l))%Z ->
  exists x, index l i = Ok x /\ nth_error l (Z.to_nat i) = Some x.
Proof.
  intros Hi. unfold index.
  destruct (Z.ltb_spec i 0); [lia|].
  destruct (Z.leb_spec 0 i); [|lia].
  destruct (Z.ltb_spec i (Z.of_nat (List.length l))); [|lia]. simpl.
  destruct (nth_error l (Z.to_nat i)) as [x|] eqn:E.
  - now exists x.
  - apply nth_error_None in E. lia.
Qed.

Lemma index_nil {A : Type} (i : Z) : index (@nil A) i = Raise IndexError.
Proof.
  unfold index. simpl. rewrite Z.add_0_r.
  destruct (i <? 0)%Z;
    destruct (Z.leb_spec 0 i); destruct (Z.ltb_spec i 0);
    simpl; try reflexivity; lia.
Qed.

Local Open Scope Q_scope.

Lemma div_nonzero (a b : Q) : ~ b == 0 -> div a b = Ok (a / b).
Proof.
  intros Hb. unfold div. destruct (Qeq_bool b 0) eqn:E; [|reflexivity].
  apply Qeq_bool_eq in E. contradiction.
Qed.

Lemma div_3600 (a : Q) : div a 3600 = Ok (a / 3600).
Proof. reflexivity. Qed.

Lemma min_1_lt (x : Q) : x < 1 -> min 1 x = x.
Proof.
  intros H. unfold min. destruct (Qlt_le_dec x 1) as [_|H']; [reflexivity|].
  exfalso. apply (Qlt_not_le _ _ H H').
Qed.

Lemma min_1_ge (x : Q) : 1 <= x -> min 1 x = 1.
Proof.
  intros H. unfold min. destruct (Qlt_le_dec x 1) as [H'|_]; [|reflexivity].
  exfalso. apply (Qlt_not_le _ _ H' H).
Qed.

Lemma uniform_range (a b u : Q) :
  a <= b -> 0 <= u -> u < 1 -> a <= uniform a b u /\ uniform a b u <= b.
Proof. intros Hab H0 H1. unfold uniform. split; nra. Qed.

End PyFacts.

(* ================================================================== *)
(** ** The fallback classifier                                          *)
(* ================================================================== *)

Module GeofenceFacts.

Import Py Geofence GeofenceSpec.

Section Scan.

Variables longitude latitude : Q.
Let d := distance longitude latitude.

Lemma FirstMin_in zones z : FirstMin d zones z -> In z zones.
Proof.
  intros (l1 & l2 & -> & _). apply in_or_app. right. now left.
Qed.

Lemma FirstMin_le zones z z' :
  FirstMin d zones z -> In z' zones -> (d z <= d z')%R.
Proof.
  intros (l1 & l2 & -> & H1 & H2) Hin.
  apply in_app_or in Hin. destruct Hin as [Hin|[<-|Hin]].
  - apply Rlt_le. auto.
  - apply Rle_refl.
  - auto.
Qed.

Lemma fallback_scan_snoc zones z :
  fallback_scan (zones ++ [z]) longitude latitude =
  fallback_step longitude latitude (fallback_scan zones longitude latitude) z.
Proof. unfold fallback_scan. now rewrite fold_left_app. Qed.

(** The loop invariant: after any prefix the scan holds the first zone at
    the minimum distance, or the initial pair when the prefix is empty. *)
Lemma fallback_scan_spec zones :
  Scanned d zones (fallback_scan zones longitude latitude).
Proof.
  induction zones as [|z zones IH] using rev_ind.
  - constructor.
  - rewrite fallback_scan_snoc.
    remember (fallback_scan zones longitude latitude) as acc eqn:Eacc.
    clear Eacc. destruct IH as [|zones z0 Hmin]; unfold fallback_step; fold d.
    + destruct (Dist_lt_dec (Fin (d z)) Inf) as [_|Hn]; [|exfalso; apply Hn; exact I].
      apply Scanned_some. exists [], []. simpl. repeat split; intros ? [].
    + destruct Hmin as (l1 & l2 & Hsplit & H1 & H2).
      destruct (Dist_lt_dec (Fin (d z)) (Fin (d z0))) as [Hlt|Hge]; simpl in *.
      * apply Scanned_some. exists zones, []. repeat split.
        -- intros z' Hin. subst zones.
           apply in_app_or in Hin. destruct Hin as [Hin|[<-|Hin]].
           ++ apply Rlt_trans with (d z0); auto.
           ++ exact Hlt.
           ++ apply Rlt_le_trans with (d z0); auto.
        -- intros ? [].
      * apply Scanned_some. exists l1, (l2 ++ [z]). repeat split.
        -- subst zones. now rewrite <- app_assoc.
        -- exact H1.
        -- intros z' Hin. apply in_app_or in Hin.
           destruct Hin as [Hin|[<-|[]]]; [auto | now apply Rnot_lt_le].
Qed.

(** The first minimum is unique as a position, hence as a distance. *)
Lemma FirstMin_unique_distance zones z z' :
  FirstMin d zones z -> FirstMin d zones z' -> d z = d z'.
Proof.
  intros H H'. apply Rle_antisym.
  - apply (FirstMin_le zones z z' H), (FirstMin_in zones z' H').
  - apply (FirstMin_le zones z' z H'), (FirstMin_in zones z H).
Qed.

Lemma FirstMin_unique zones z z' :
  FirstMin d zones z -> FirstMin d zones z' -> z = z'.
Proof.
  intros H H'. pose proof (FirstMin_unique_distance zones z z' H H') as Hd.
  destruct H as (a & b & E & Ha & Hb), H' as (a' & b' & E' & Ha' & Hb').
  revert a' E' Ha'. subst zones. induction a as [|x a IH]; intros a' E' Ha'.
  - destruct a' as [|x' a']; simpl in E'.
    + congruence.
    + injection E' as E1 _. subst x'. specialize (Ha' z (or_introl eq_refl)).
      rewrite Hd in Ha'. elim (Rlt_irrefl _ Ha').
  - destruct a' as [|x' a']; simpl in E'.
    + injection E' as E1 _. subst x. specialize (Ha z' (or_introl eq_refl)).
      rewrite Hd in Ha. elim (Rlt_irrefl _ Ha).
    + injection E' as E1 E'. apply (IH (fun y Hy => Ha y (or_intror Hy)) a' E').
      intros y Hy. apply Ha'. now right.
Qed.

(** Some zone is the first minimum of a non-empty list. *)
Lemma FirstMin_exists zones :
  zones <> [] -> exists z, FirstMin d zones z.
Proof.
  intros Hne. pose proof (fallback_scan_spec zones) as H.
  remember (fallback_scan zones longitude latitude) as acc eqn:Eacc. clear Eacc.
  destruct H as [|zones z Hmin].
  - congruence.
  - now exists z.
Qed.

(** What the classifier returns once the first minimum is known. *)
Lemma classify_first_min zones z :
  FirstMin d zones z ->
  _classify_point_fallback zones longitude latitude =
  if Rlt_dec (d z) 2 then Some (name z) else None.
Proof.
  intros Hz. unfold _classify_point_fallback.
  pose proof (fallback_scan_spec zones) as H.
  remember (fallback_scan zones longitude latitude) as acc eqn:Eacc. clear Eacc.
  destruct H as [|zones z0 Hmin].
  - destruct Hz as (a & b & E & _). destruct a; discriminate.
  - rewrite (FirstMin_unique zones z z0 Hz Hmin). simpl.
    destruct (Rlt_dec (d z0) 2); reflexivity.
Qed.

Lemma classify_empty :
  _classify_point_fallback [] longitude latitude = None.
Proof.
  unfold _classify_point_fallback. simpl.
  destruct (Dist_lt_dec Inf (Fin 2)) as [[]|_]. reflexivity.
Qed.

End Scan.

(** *** The rational scan computes the same label *)

Lemma sq_distance_nonneg lng lat z : (0 <= sq_distance lng lat z)%Q.
Proof.
  unfold sq_distance.
  pose proof (Qpower.Qsqr_nonneg (lat - center_lat z)).
  pose proof (Qpower.Qsqr_nonneg (lng - center_lng z)).
  lra.
Qed.

Lemma Q2R_nonneg q : (0 <= q)%Q -> (0 <= Q2R q)%R.
Proof. intros H. apply Qle_Rle in H. now rewrite RMicromega.Q2R_0 in H. Qed.

Lemma sqrt_Q2R_lt a b :
  (0 <= a)%Q -> (0 <= b)%Q ->
  (a < b)%Q <-> (sqrt (Q2R a) < sqrt (Q2R b))%R.
Proof.
  intros Ha Hb. split; intros H.
  - apply sqrt_lt_1; auto using Q2R_nonneg. now apply Qlt_Rlt.
  - apply Rlt_Qlt. apply sqrt_lt_0; auto using Q2R_nonneg.
Qed.

Lemma sqrt_Q2R_lt_2 a :
  (0 <= a)%Q -> (a < 4)%Q <-> (sqrt (Q2R a) < 2)%R.
Proof.
  intros Ha.
  assert (E : sqrt (Q2R 4) = 2%R).
  { replace (Q2R 4) with (2 * 2)%R by (unfold Q2R; simpl; Lra.lra).
    apply sqrt_square. Lra.lra. }
  rewrite <- E. apply sqrt_Q2R_lt; [assumption | discriminate].
Qed.

Lemma fallback_step_same lng lat acc acc' z :
  SameAcc acc acc' ->
  SameAcc (fallback_step lng lat acc z) (fallback_step_sq lng lat acc' z).
Proof.
  intros H. pose proof (sq_distance_nonneg lng lat z) as Hz.
  destruct H as [c | q c Hq]; unfold fallback_step, fallback_step_sq, distance.
  - destruct (Dist_lt_dec _ Inf) as [_|Hn]; [|exfalso; apply Hn; exact I].
    now constructor.
  - destruct (Dist_lt_dec _ _) as [Hlt|Hge]; simpl in *;
      destruct (Qlt_le_dec _ q) as [Hlt'|Hge'].
    + now constructor.
    + apply sqrt_Q2R_lt in Hlt; auto. exfalso. apply (Qlt_not_le _ _ Hlt Hge').
    + exfalso. apply Hge. now apply sqrt_Q2R_lt.
    + now constructor.
Qed.

Lemma fold_same lng lat zones : forall acc acc',
  SameAcc acc acc' ->
  SameAcc (fold_left (fallback_step lng lat) zones acc)
          (fold_left (fallback_step_sq lng lat) zones acc').
Proof.
  induction zones as [|z zones IH]; intros acc acc' H; simpl.
  - exact H.
  - apply IH. now apply fallback_step_same.
Qed.

(** [classify_sq] returns what [_classify_point_fallback] returns. *)
Lemma classify_sq_correct zones lng lat :
  _classify_point_fallback zones lng lat = classify_sq zones lng lat.
Proof.
  unfold _classify_point_fallback, classify_sq, fallback_scan.
  destruct (fold_same lng lat zones _ _ (SameAcc_inf None)) as [c | q c Hq].
  - destruct (Dist_lt_dec Inf (Fin 2)) as [[]|_]. reflexivity.
  - destruct (Dist_lt_dec _ _) as [Hlt|Hge]; simpl in *;
      destruct (Qlt_le_dec q 4) as [Hlt'|Hge']; try reflexivity.
    + apply sqrt_Q2R_lt_2 in Hlt; auto. exfalso. apply (Qlt_not_le _ _ Hlt Hge').
    + exfalso. apply Hge. now apply sqrt_Q2R_lt_2.
Qed.









(** The values of [state_zones]: every declared zone, twice in a row. *)
Lemma state_zones_values :
  dict_values state_zones = flat_map (fun z => [z; z]) declared_zones.
Proof. vm_compute. reflexivity. Qed.






End GeofenceFacts.

(* ================================================================== *)
(** ** The route simulator                                              *)
(* ================================================================== *)

Module SimFacts.

Import Py Sim SimSpec PyFacts.
Local Open Scope string_scope.
Local Open Scope Q_scope.

(** *** Moving along the current route *)

(** The guard [if total_distance > 0 else 0] keeps the division defined:
    the first part of the update never raises. *)
Lemma move_along_route_moved taxi route dt :
  move_along_route taxi route dt = Ok (moved taxi route dt).
Proof.
  unfold move_along_route, moved, increment. rewrite div_3600. simpl.
  destruct (Qlt_le_dec 0 (distance_km route)) as [Hpos|Hle].
  - rewrite div_nonzero.
    + simpl. destruct (String.eqb (status taxi) "pickup"); reflexivity.
    + intros E. rewrite E in Hpos. apply (Qlt_irrefl _ Hpos).
  - simpl. destruct (String.eqb (status taxi) "pickup"); reflexivity.
Qed.

Lemma moved_progress taxi route dt :
  route_progress (moved taxi route dt)
  = min 1 (route_progress taxi + increment taxi route dt).
Proof. unfold moved. destruct (String.eqb _ _); reflexivity. Qed.

Lemma moved_frame taxi route dt :
  taxi_id (moved taxi route dt) = taxi_id taxi /\
  route_index (moved taxi route dt) = route_index taxi /\
  current_route (moved taxi route dt) = current_route taxi /\
  speed_kmh (moved taxi route dt) = speed_kmh taxi /\
  status (moved taxi route dt) = status taxi /\
  current_zone (moved taxi route dt) = current_zone taxi /\
  previous_zone (moved taxi route dt) = previous_zone taxi /\
  last_update (moved taxi route dt) = last_update taxi.
Proof. unfold moved. destruct (String.eqb _ _); repeat split. Qed.

Lemma increment_nonneg taxi route dt :
  0 <= speed_kmh taxi -> 0 <= dt -> 0 <= increment taxi route dt.
Proof.
  intros Hs Hdt. unfold increment.
  destruct (Qlt_le_dec 0 (distance_km route)) as [Hpos|_]; [|apply Qle_refl].
  apply Qle_shift_div_l; [exact Hpos|]. rewrite Qmult_0_l.
  apply Qmult_le_0_compat; [|exact Hdt].
  apply Qle_shift_div_l; [reflexivity|]. now rewrite Qmult_0_l.
Qed.

Lemma increment_zero_distance taxi route dt :
  distance_km route <= 0 -> increment taxi route dt = 0.
Proof.
  intros H. unfold increment.
  destruct (Qlt_le_dec 0 (distance_km route)) as [Hpos|_]; [|reflexivity].
  exfalso. apply (Qlt_not_le _ _ Hpos H).
Qed.

Lemma min_1_bounds x : 0 <= x -> 0 <= min 1 x /\ min 1 x <= 1.
Proof.
  intros Hx. unfold min. destruct (Qlt_le_dec x 1) as [Hlt|Hge].
  - split; [exact Hx | now apply Qlt_le_weak].
  - split; [discriminate | apply Qle_refl].
Qed.

Lemma min_1_cases x :
  (x < 1 /\ min 1 x = x) \/ (1 <= x /\ min 1 x = 1).
Proof.
  unfold min. destruct (Qlt_le_dec x 1) as [Hlt|Hge]; [left | right]; now split.
Qed.

(** *** Completing a route *)

Lemma index_raises {A : Type} (l : list A) i e :
  index l i = Raise e -> e = IndexError.
Proof.
  unfold index. destruct (_ && _)%bool; [|congruence].
  destruct (nth_error _ _); congruence.
Qed.

(** With a valid route index, the completion starts the cyclically next
    route of the taxi's list. *)
Lemma complete_restarts table taxi u :
  (0 <= route_index taxi < route_count table taxi)%Z ->
  let next_index := ((route_index taxi + 1) mod route_count table taxi)%Z in
  exists next,
    index (routes_of table taxi) next_index = Ok next /\
    _complete_current_route table taxi u = Ok (restarted taxi next_index next u).
Proof.
  intros Hi next_index. unfold _complete_current_route. simpl.
  fold (routes_of table taxi). unfold route_count in *.
  set (n := Z.of_nat (List.length (routes_of table taxi))) in *.
  destruct (Z.ltb_spec (route_index taxi + 1) n) as [Hlt|Hge].
  - assert (E : next_index = (route_index taxi + 1)%Z).
    { unfold next_index. apply Z.mod_small. lia. }
    destruct (index_in_range (routes_of table taxi) (route_index taxi + 1))
      as (next & Hnext & _); [fold n; lia|].
    exists next. rewrite E. split; [exact Hnext|].
    rewrite Hnext. reflexivity.
  - assert (E : next_index = 0%Z).
    { unfold next_index. replace (route_index taxi + 1)%Z with n by lia.
      apply Z.mod_same. lia. }
    destruct (index_in_range (routes_of table taxi) 0)
      as (next & Hnext & _); [fold n; lia|].
    exists next. rewrite E. split; [exact Hnext|].
    rewrite Hnext. reflexivity.
Qed.

Lemma complete_never_divides table taxi u :
  _complete_current_route table taxi u <> Raise ZeroDivisionError.
Proof.
  unfold _complete_current_route.
  destruct (_ <? _)%Z.
  - destruct (index _ _) eqn:E; simpl; [discriminate|].
    apply index_raises in E. subst. discriminate.
  - destruct (index _ _) eqn:E; simpl; [discriminate|].
    apply index_raises in E. subst. discriminate.
Qed.

(** Outside the invariant: a taxi without routes cannot be restarted. *)
Lemma complete_without_routes table taxi u :
  routes_of table taxi = [] ->
  _complete_current_route table taxi u = Raise IndexError.
Proof.
  intros H. unfold _complete_current_route. simpl.
  fold (routes_of table taxi). rewrite H.
  destruct (_ <? _)%Z; rewrite index_nil; reflexivity.
Qed.

Lemma restarted_fields taxi i next u :
  route_progress (restarted taxi i next u) = 0 /\
  route_index (restarted taxi i next u) = i /\
  current_route (restarted taxi i next u) = Some next /\
  current_lat (restarted taxi i next u) = latitude (pickup next) /\
  current_lng (restarted taxi i next u) = longitude (pickup next) /\
  destination_lat (restarted taxi i next u) = latitude (dropoff next) /\
  destination_lng (restarted taxi i next u) = longitude (dropoff next) /\
  status (restarted taxi i next u) = "pickup" /\
  speed_kmh (restarted taxi i next u) = uniform 600 1200 u /\
  taxi_id (restarted taxi i next u) = taxi_id taxi /\
  current_zone (restarted taxi i next u) = current_zone taxi /\
  previous_zone (restarted taxi i next u) = previous_zone taxi.
Proof. repeat split. Qed.

Lemma routes_of_same_id table taxi taxi' :
  taxi_id taxi' = taxi_id taxi -> routes_of table taxi' = routes_of table taxi.
Proof. unfold routes_of. now intros ->. Qed.

Lemma route_count_same_id table taxi taxi' :
  taxi_id taxi' = taxi_id taxi -> route_count table taxi' = route_count table taxi.
Proof. unfold route_count. intros H. now rewrite (routes_of_same_id table _ _ H). Qed.

(** *** The whole position update *)

Lemma update_on_route table taxi route dt u :
  current_route taxi = Some route ->
  _update_taxi_position table taxi dt u =
  if Qle_bool 1 (route_progress (moved taxi route dt))
  then _complete_current_route table (moved taxi route dt) u
  else Ok (moved taxi route dt).
Proof.
  intros Hr. unfold _update_taxi_position. rewrite Hr.
  rewrite move_along_route_moved. reflexivity.
Qed.

(** C9. A taxi without a current route is left as it is by the position
    update, which returns at once: no field changes. *)
Theorem update_without_route_is_identity :
  forall (table : dict (list TaxiRoute)) (taxi : TaxiState) (dt u : Q),
    current_route taxi = None ->
    _update_taxi_position table taxi dt u = Ok taxi.
Proof.
  intros table taxi dt u H. unfold _update_taxi_position. now rewrite H.
Qed.

Lemma update_without_route_is_identity_witness :
  current_route Examples.parked_taxi = None /\
  _update_taxi_position taxi_routes Examples.parked_taxi 2 0.5
  = Ok Examples.parked_taxi.
Proof.
  split; [reflexivity|].
  apply (update_without_route_is_identity taxi_routes Examples.parked_taxi 2 0.5).
  reflexivity.
Defined.

(** *** Routes of length zero *)

Lemma update_never_divides table taxi dt u :
  _update_taxi_position table taxi dt u <> Raise ZeroDivisionError.
Proof.
  destruct (current_route taxi) as [route|] eqn:Hr.
  - rewrite (update_on_route table taxi route dt u Hr).
    destruct (Qle_bool _ _); [apply complete_never_divides | discriminate].
  - unfold _update_taxi_position. rewrite Hr. discriminate.
Qed.

(** C3, as the code has it.  On a route of length zero the update does
    not divide: the increment is 0, and a taxi that has not yet reached
    the end of the route stays on it with its progress unchanged, whatever
    the elapsed time.  The route is completed on that tick only when the
    progress had already reached 1.0. *)
Theorem zero_distance_route_keeps_progress :
  forall (table : dict (list TaxiRoute)) (taxi : TaxiState) (route : TaxiRoute)
         (dt u : Q),
    current_route taxi = Some route ->
    distance_km route == 0 ->
    _update_taxi_position table taxi dt u <> Raise ZeroDivisionError /\
    increment taxi route dt = 0 /\
    (route_progress taxi < 1 ->
       exists taxi',
         _update_taxi_position table taxi dt u = Ok taxi' /\
         route_progress taxi' == route_progress taxi /\
         route_index taxi' = route_index taxi /\
         current_route taxi' = Some route) /\
    (1 <= route_progress taxi ->
       _update_taxi_position table taxi dt u
       = _complete_current_route table (moved taxi route dt) u).
Proof.
  intros table taxi route dt u Hr Hd.
  assert (Hinc : increment taxi route dt = 0).
  { apply increment_zero_distance. rewrite Hd. apply Qle_refl. }
  assert (Hp : route_progress (moved taxi route dt)
               = min 1 (route_progress taxi + 0)).
  { rewrite moved_progress. now rewrite Hinc. }
  repeat split.
  - apply update_never_divides.
  - exact Hinc.
  - intros Hlt. exists (moved taxi route dt).
    assert (Hlt' : route_progress taxi + 0 < 1) by (rewrite Qplus_0_r; exact Hlt).
    rewrite (update_on_route table taxi route dt u Hr), Hp.
    rewrite (min_1_lt _ Hlt').
    destruct (Qle_bool 1 (route_progress taxi + 0)) eqn:E.
    + apply Qle_bool_iff in E. exfalso. apply (Qlt_not_le _ _ Hlt' E).
    + destruct (moved_frame taxi route dt) as (_ & Hi & Hc & _).
      repeat split; [| exact Hi | now rewrite Hc].
      apply Qplus_0_r.
  - intros Hge.
    assert (Hge' : 1 <= route_progress taxi + 0) by (rewrite Qplus_0_r; exact Hge).
    rewrite (update_on_route table taxi route dt u Hr), Hp.
    rewrite (min_1_ge _ Hge'). reflexivity.
Qed.

Lemma zero_distance_route_keeps_progress_witness :
  exists taxi',
    _update_taxi_position Examples.standstill_routes Examples.standstill_taxi 10 0.5
    = Ok taxi' /\
    route_progress taxi' == route_progress Examples.standstill_taxi /\
    route_index taxi' = route_index Examples.standstill_taxi /\
    current_route taxi' = Some Examples.standstill.
Proof.
  apply (zero_distance_route_keeps_progress Examples.standstill_routes
           Examples.standstill_taxi Examples.standstill 10 0.5).
  - reflexivity.
  - reflexivity.
  - reflexivity.
Defined.

(** C3 as stated fails: after ten seconds on a route of length zero the
    taxi is still on that route (index 0, progress 0), it has not advanced
    to the next route of its list (index 1). *)
Lemma zero_distance_route_not_completed :
  (taxi <- _update_taxi_position Examples.standstill_routes
             Examples.standstill_taxi 10 0.5 ;;
   Ok (route_index taxi, current_route taxi, route_progress taxi))
  = Ok (0%Z, Some Examples.standstill, 0) /\
  index (routes_of Examples.standstill_routes Examples.standstill_taxi) 1
  = Ok Examples.rhode_island_to_massachusetts.
Proof. split; reflexivity. Qed.

(** *** Cycling through the routes *)

Lemma complete_routes_cycle table draws : forall taxi,
  (0 <= route_index taxi < route_count table taxi)%Z ->
  exists taxi',
    complete_routes table taxi draws = Ok taxi' /\
    taxi_id taxi' = taxi_id taxi /\
    route_index taxi'
    = ((route_index taxi + Z.of_nat (List.length draws))
       mod route_count table taxi)%Z /\
    (draws <> [] ->
     exists route,
       index (routes_of table taxi) (route_index taxi') = Ok route /\
       current_route taxi' = Some route).
Proof.
  induction draws as [|u draws IH]; intros taxi Hi.
  - exists taxi. simpl. repeat split.
    + rewrite Z.add_0_r. symmetry. apply Z.mod_small. exact Hi.
    + congruence.
  - destruct (complete_restarts table taxi u Hi) as (next & Hnext & Hc).
    set (n := route_count table taxi) in *.
    set (taxi1 := restarted taxi ((route_index taxi + 1) mod n) next u) in *.
    assert (Hid : taxi_id taxi1 = taxi_id taxi) by reflexivity.
    assert (Hn : route_count table taxi1 = n)
      by (apply route_count_same_id; exact Hid).
    assert (Hi1 : (0 <= route_index taxi1 < route_count table taxi1)%Z).
    { rewrite Hn. change (route_index taxi1) with ((route_index taxi + 1) mod n)%Z.
      apply Z.mod_pos_bound. lia. }
    destruct (IH taxi1 Hi1) as (taxi' & Hrun & Hid' & Hidx & Hroute).
    exists taxi'. simpl. rewrite Hc. simpl. repeat split.
    + exact Hrun.
    + congruence.
    + rewrite Hidx, Hn.
      change (route_index taxi1) with ((route_index taxi + 1) mod n)%Z.
      rewrite Zplus_mod_idemp_l. f_equal. lia.
    + intros _. destruct draws as [|u' draws'].
      * simpl in Hrun. injection Hrun as <-. exists next. split; [|reflexivity].
        exact Hnext.
      * destruct Hroute as (route & Hr1 & Hr2); [discriminate|].
        exists route. split; [|exact Hr2].
        now rewrite <- (routes_of_same_id table taxi taxi1 Hid).
Qed.

(** C7. Completing a route moves the taxi to the cyclically next route of
    its list: the index becomes [(route_index + 1) mod N], the progress 0,
    the position the pickup of the new route, and the speed is drawn
    anew between 600 and 1200.  After [N] completions in a row the taxi
    is on the route it started from, the first one if it started there. *)
Theorem complete_route_cycles :
  forall (table : dict (list TaxiRoute)) (taxi : TaxiState) (u : Q),
    (0 <= route_index taxi < route_count table taxi)%Z ->
    0 <= u -> u < 1 ->
    let n := route_count table taxi in
    (exists next taxi',
       _complete_current_route table taxi u = Ok taxi' /\
       index (routes_of table taxi) ((route_index taxi + 1) mod n) = Ok next /\
       route_index taxi' = ((route_index taxi + 1) mod n)%Z /\
       route_progress taxi' = 0 /\
       current_route taxi' = Some next /\
       current_lat taxi' = latitude (pickup next) /\
       current_lng taxi' = longitude (pickup next) /\
       speed_kmh taxi' = uniform 600 1200 u /\
       600 <= speed_kmh taxi' /\ speed_kmh taxi' <= 1200) /\
    (forall draws : list Q,
       List.length draws = Z.to_nat n ->
       exists route back,
         complete_routes table taxi draws = Ok back /\
         index (routes_of table taxi) (route_index taxi) = Ok route /\
         route_index back = route_index taxi /\
         current_route back = Some route).
Proof.
  intros table taxi u Hi Hu0 Hu1 n. split.
  - destruct (complete_restarts table taxi u Hi) as (next & Hnext & Hc).
    exists next, (restarted taxi ((route_index taxi + 1) mod n) next u).
    destruct (uniform_range 600 1200 u) as (Hlo & Hhi);
      [discriminate | exact Hu0 | exact Hu1 |].
    repeat split; assumption.
  - intros draws Hlen.
    destruct (complete_routes_cycle table draws taxi Hi)
      as (back & Hrun & _ & Hidx & Hroute).
    assert (Hback : route_index back = route_index taxi).
    { rewrite Hidx, Hlen. fold n. rewrite Z2Nat.id by (unfold n; lia).
      rewrite Z.add_mod by (unfold n; lia).
      rewrite Z.mod_same, Z.add_0_r, Z.mod_mod by (unfold n; lia).
      apply Z.mod_small. exact Hi. }
    destruct Hroute as (route & Hr1 & Hr2).
    { intros ->. simpl in Hlen. unfold n in *. lia. }
    exists route, back. rewrite Hback in Hr1. repeat split; assumption.
Qed.

(** [taxi_a] of the source, on its first route: one completion takes it
    to its second route, five completions back to the first. *)
Lemma complete_route_cycles_witness :
  (exists next taxi',
     _complete_current_route taxi_routes
       (Examples.taxi_a Examples.offline_classifier_sq) 0.5 = Ok taxi' /\
     index (routes_of taxi_routes (Examples.taxi_a Examples.offline_classifier_sq))
       ((0 + 1) mod 5) = Ok next /\
     route_index taxi' = ((0 + 1) mod 5)%Z /\
     route_progress taxi' = 0 /\
     current_route taxi' = Some next /\
     current_lat taxi' = latitude (pickup next) /\
     current_lng taxi' = longitude (pickup next) /\
     speed_kmh taxi' = uniform 600 1200 0.5 /\
     600 <= speed_kmh taxi' /\ speed_kmh taxi' <= 1200) /\
  (exists route back,
     complete_routes taxi_routes
       (Examples.taxi_a Examples.offline_classifier_sq)
       [0.1; 0.2; 0.3; 0.4; 0.5] = Ok back /\
     index (routes_of taxi_routes (Examples.taxi_a Examples.offline_classifier_sq))
       0 = Ok route /\
     route_index back = 0%Z /\
     current_route back = Some route).
Proof.
  assert (Hi : (0 <= route_index (Examples.taxi_a Examples.offline_classifier_sq)
                < route_count taxi_routes
                    (Examples.taxi_a Examples.offline_classifier_sq))%Z)
    by (vm_compute; split; [discriminate | reflexivity]).
  assert (Hu0 : 0 <= 0.5) by discriminate.
  assert (Hu1 : 0.5 < 1) by reflexivity.
  destruct (complete_route_cycles taxi_routes
              (Examples.taxi_a Examples.offline_classifier_sq) 0.5 Hi Hu0 Hu1)
    as (H1 & H2).
  split.
  - exact H1.
  - apply (H2 [0.1; 0.2; 0.3; 0.4; 0.5]). reflexivity.
Defined.

(** *** The progress invariant *)

(** One update of a well-formed taxi: the progress moves up to
    [min(1.0, ...)]; below 1.0 the update stops there, at 1.0 the route is
    completed. *)
Lemma update_step table taxi dt u :
  WellFormed table taxi -> valid_tick (dt, u) ->
  exists route,
    current_route taxi = Some route /\
    route_progress taxi <= route_progress (moved taxi route dt) /\
    ((route_progress (moved taxi route dt) < 1 /\
      _update_taxi_position table taxi dt u = Ok (moved taxi route dt)) \/
     (route_progress (moved taxi route dt) = 1 /\
      exists next,
        _update_taxi_position table taxi dt u
        = Ok (restarted (moved taxi route dt)
                ((route_index taxi + 1) mod route_count table taxi) next u))).
Proof.
  intros [Hroute Hlo Hhi Hspeed Hidx] (Hdt & Hu0 & Hu1). simpl in *.
  destruct (current_route taxi) as [route|] eqn:Hr; [|congruence].
  exists route. split; [reflexivity|].
  pose proof (increment_nonneg taxi route dt Hspeed Hdt) as Hinc.
  rewrite (update_on_route table taxi route dt u Hr), moved_progress.
  destruct (min_1_cases (route_progress taxi + increment taxi route dt))
    as [(Hlt & ->)|(Hge & ->)].
  - split; [lra|]. left. split; [exact Hlt|].
    destruct (Qle_bool 1 _) eqn:E; [|reflexivity].
    apply Qle_bool_iff in E. exfalso. apply (Qlt_not_le _ _ Hlt E).
  - split; [exact Hhi|]. right. split; [reflexivity|].
    destruct (moved_frame taxi route dt) as (Hid & Hi & _).
    assert (Hidx' : (0 <= route_index (moved taxi route dt)
                     < route_count table (moved taxi route dt))%Z).
    { rewrite Hi, (route_count_same_id table taxi _ Hid). exact Hidx. }
    destruct (complete_restarts table (moved taxi route dt) u Hidx')
      as (next & _ & Hc).
    exists next. change (Qle_bool 1 1) with true. cbv iota.
    rewrite Hc, Hi, (route_count_same_id table taxi _ Hid). reflexivity.
Qed.

Lemma update_keeps_well_formed table taxi dt u :
  WellFormed table taxi -> valid_tick (dt, u) ->
  exists taxi',
    _update_taxi_position table taxi dt u = Ok taxi' /\ WellFormed table taxi'.
Proof.
  intros Hwf Htick.
  destruct (update_step table taxi dt u Hwf Htick)
    as (route & Hr & Hmono & [(Hlt & Hup)|(Hone & next & Hup)]).
  - exists (moved taxi route dt). split; [exact Hup|].
    destruct Hwf as [Hroute Hlo Hhi Hspeed Hidx].
    destruct (moved_frame taxi route dt) as (Hid & Hi & Hc & Hs & _).
    constructor.
    + now rewrite Hc.
    + lra.
    + now apply Qlt_le_weak.
    + now rewrite Hs.
    + now rewrite Hi, (route_count_same_id table taxi _ Hid).
  - eexists. split; [exact Hup|].
    destruct Hwf as [Hroute Hlo Hhi Hspeed Hidx].
    destruct Htick as (_ & Hu0 & Hu1). simpl in Hu0, Hu1.
    destruct (moved_frame taxi route dt) as (Hid & _).
    constructor; simpl.
    + discriminate.
    + apply Qle_refl.
    + discriminate.
    + destruct (uniform_range 600 1200 u) as (H600 & _);
        [discriminate | exact Hu0 | exact Hu1 |].
      apply Qle_trans with 600; [discriminate | exact H600].
    + change (route_count table (restarted _ _ _ _))
        with (route_count table (moved taxi route dt)).
      rewrite (route_count_same_id table taxi _ Hid).
      apply Z.mod_pos_bound. lia.
Qed.

Lemma run_updates_well_formed table ticks : forall taxi,
  WellFormed table taxi -> Forall valid_tick ticks ->
  exists taxi', run_updates table taxi ticks = Ok taxi' /\ WellFormed table taxi'.
Proof.
  induction ticks as [|[dt u] ticks IH]; intros taxi Hwf Hticks.
  - now exists taxi.
  - inversion Hticks as [|tk tks Htk Htks]; subst.
    destruct (update_keeps_well_formed table taxi dt u Hwf Htk) as (taxi1 & H1 & Hwf1).
    destruct (IH taxi1 Hwf1 Htks) as (taxi' & Hrun & Hwf').
    exists taxi'. simpl. rewrite H1. simpl. now split.
Qed.

(** C6. From a well-formed taxi (on a route, progress in [0,1], speed not
    negative, valid route index) any sequence of updates with non-negative
    elapsed times succeeds and keeps [route_progress] in [0,1].  Each
    further update either leaves the taxi on its route with a progress
    that did not decrease and is still below 1.0, or, exactly when the
    progress reaches 1.0 on that tick, resets it to 0 and moves the route
    index one step forward modulo the number of routes. *)
Theorem route_progress_invariant :
  forall (table : dict (list TaxiRoute)) (taxi : TaxiState)
         (ticks : list (Q * Q)),
    WellFormed table taxi ->
    Forall valid_tick ticks ->
    exists taxi_n,
      run_updates table taxi ticks = Ok taxi_n /\
      0 <= route_progress taxi_n /\ route_progress taxi_n <= 1 /\
      WellFormed table taxi_n /\
      forall dt u, valid_tick (dt, u) ->
        exists route mid taxi',
          current_route taxi_n = Some route /\
          move_along_route taxi_n route dt = Ok mid /\
          _update_taxi_position table taxi_n dt u = Ok taxi' /\
          route_progress taxi_n <= route_progress mid /\
          0 <= route_progress taxi' /\ route_progress taxi' <= 1 /\
          ((route_progress mid < 1 /\
            taxi' = mid /\
            route_index taxi' = route_index taxi_n /\
            current_route taxi' = current_route taxi_n /\
            route_progress taxi_n <= route_progress taxi') \/
           (route_progress mid = 1 /\
            route_progress taxi' = 0 /\
            route_index taxi'
            = ((route_index taxi_n + 1) mod route_count table taxi_n)%Z)).
Proof.
  intros table taxi ticks Hwf Hticks.
  destruct (run_updates_well_formed table ticks taxi Hwf Hticks)
    as (taxi_n & Hrun & Hwfn).
  exists taxi_n. split; [exact Hrun|].
  split; [apply (wf_progress_lo _ _ Hwfn)|].
  split; [apply (wf_progress_hi _ _ Hwfn)|].
  split; [exact Hwfn|].
  intros dt u Htick.
  destruct (update_step table taxi_n dt u Hwfn Htick)
    as (route & Hr & Hmono & Hcase).
  destruct (update_keeps_well_formed table taxi_n dt u Hwfn Htick)
    as (taxi' & Hup & Hwf').
  exists route, (moved taxi_n route dt), taxi'.
  split; [exact Hr|]. split; [apply move_along_route_moved|].
  split; [exact Hup|]. split; [exact Hmono|].
  split; [apply (wf_progress_lo _ _ Hwf')|].
  split; [apply (wf_progress_hi _ _ Hwf')|].
  destruct (moved_frame taxi_n route dt) as (_ & Hi & Hc & _).
  destruct Hcase as [(Hlt & Hup')|(Hone & next & Hup')];
    rewrite Hup' in Hup; injection Hup as <-.
  - left. repeat split; assumption.
  - right. repeat split. exact Hone.
Qed.

(** [taxi_a] over three ticks: 100 s and 200 s on the first route, then
    one hour that completes it. *)
Lemma route_progress_invariant_witness :
  exists taxi_n,
    run_updates taxi_routes (Examples.taxi_a Examples.offline_classifier_sq)
      [(100, 0.5); (200, 0.25); (3600, 0.75)] = Ok taxi_n /\
    0 <= route_progress taxi_n /\ route_progress taxi_n <= 1.
Proof.
  assert (Hwf : WellFormed taxi_routes
                  (Examples.taxi_a Examples.offline_classifier_sq)).
  { constructor.
    - discriminate.
    - discriminate.
    - discriminate.
    - discriminate.
    - vm_compute. split; [discriminate | reflexivity]. }
  assert (Hticks : Forall valid_tick [(100, 0.5); (200, 0.25); (3600, 0.75)]).
  { repeat constructor; discriminate. }
  destruct (route_progress_invariant taxi_routes _ _ Hwf Hticks)
    as (taxi_n & Hrun & Hlo & Hhi & _).
  exists taxi_n. repeat split; assumption.
Defined.

(** *** The zone-transition tracker *)

Lemma store_trace_event_ok avail sink taxi kind zone :
  exists fx,
    _store_trace_event avail sink taxi kind zone = Ok fx /\ zone_events fx = [].
Proof.
  unfold _store_trace_event. destruct avail; simpl.
  - destruct (sink _); simpl; eexists; split; reflexivity.
  - eexists; split; reflexivity.
Qed.

Lemma report_zone_ok avail sink taxi kind zone :
  exists fx,
    report_zone avail sink taxi kind zone = Ok fx /\
    zone_events fx = match zone with
                     | Some z => if truthy zone then [("zone_" ++ kind, z)] else []
                     | None => []
                     end.
Proof.
  destruct zone as [[|c z]|]; simpl; try (eexists; split; reflexivity).
  destruct (store_trace_event_ok avail sink taxi kind (String c z))
    as (fx & -> & Hfx).
  simpl. eexists. split; [reflexivity|]. simpl. now rewrite Hfx.
Qed.

Lemma check_zone_transitions_spec classify avail sink taxi :
  let a := current_zone taxi in
  let b := classify (current_lng taxi) (current_lat taxi) in
  exists fx,
    _check_zone_transitions classify avail sink taxi
    = Ok (if opt_str_eqb b a then taxi else set_zones a b taxi, fx) /\
    zone_events fx = transition_events a b.
Proof.
  intros a b. unfold _check_zone_transitions, transition_events. fold a b.
  destruct (opt_str_eqb b a); simpl.
  - exists []. split; reflexivity.
  - destruct (report_zone_ok avail sink taxi "exit" a) as (fx1 & -> & H1).
    destruct (report_zone_ok avail sink taxi "entry" b) as (fx2 & -> & H2).
    simpl. exists (fx1 ++ fx2)%list. split; [reflexivity|].
    unfold zone_events in *. rewrite flat_map_app, H1, H2.
    unfold exit_of, entry_of. reflexivity.
Qed.



(** C8. Whatever the sink does (unavailable, storing, raising), the
    tracker returns normally, with the same events sent and the same new
    state of the taxi: on a change of zone the old zone is remembered as
    [previous_zone] and the new classification as [current_zone]. *)
Theorem sink_failure_does_not_block :
  forall (classify : Q -> Q -> option string) (avail1 avail2 : bool)
         (sink1 sink2 : TraceEvent -> Result (option string)) (taxi : TaxiState),
    let a := current_zone taxi in
    let b := classify (current_lng taxi) (current_lat taxi) in
    exists taxi' fx1 fx2,
      _check_zone_transitions classify avail1 sink1 taxi = Ok (taxi', fx1) /\
      _check_zone_transitions classify avail2 sink2 taxi = Ok (taxi', fx2) /\
      zone_events fx1 = zone_events fx2 /\
      (a <> b -> previous_zone taxi' = a /\ current_zone taxi' = b) /\
      (a = b -> taxi' = taxi).
Proof.
  intros classify avail1 avail2 sink1 sink2 taxi a b.
  destruct (check_zone_transitions_spec classify avail1 sink1 taxi)
    as (fx1 & H1 & E1).
  destruct (check_zone_transitions_spec classify avail2 sink2 taxi)
    as (fx2 & H2 & E2).
  fold a b in H1, H2, E1, E2.
  exists (if opt_str_eqb b a then taxi else set_zones a b taxi), fx1, fx2.
  split; [exact H1|]. split; [exact H2|]. split; [congruence|]. split.
  - intros E. apply not_eq_sym in E. apply opt_str_eqb_neq in E.
    rewrite E. split; reflexivity.
  - intros E. symmetry in E. apply opt_str_eqb_eq in E. now rewrite E.
Qed.

(** A sink that raises on every call: both failures are recorded, the
    events are sent and the zones are updated all the same. *)
Lemma sink_failure_recorded :
  _check_zone_transitions Examples.offline_classifier_sq true
    Examples.failing_sink Examples.arrived_taxi
  = Ok (set_zones (Some "Rhode Island") (Some "Alabama") Examples.arrived_taxi,
        [ ZoneEvent "taxi_a" "zone_exit" "Rhode Island";
          TraceFailed
            (mkTraceEvent "taxi_a" "Rhode Island" "exit" 32.318231 (-86.902298))
            (Exception "container unavailable");
          ZoneEvent "taxi_a" "zone_entry" "Alabama";
          TraceFailed
            (mkTraceEvent "taxi_a" "Alabama" "entry" 32.318231 (-86.902298))
            (Exception "container unavailable") ]).
Proof. vm_compute. reflexivity. Qed.

Lemma sink_failure_does_not_block_witness :
  exists taxi' fx1 fx2,
    _check_zone_transitions Examples.offline_classifier_sq true
      Examples.failing_sink Examples.arrived_taxi = Ok (taxi', fx1) /\
    _check_zone_transitions Examples.offline_classifier_sq true
      Examples.storing_sink Examples.arrived_taxi = Ok (taxi', fx2) /\
    zone_events fx1 = zone_events fx2 /\
    previous_zone taxi' = Some "Rhode Island" /\
    current_zone taxi' = Some "Alabama".
Proof.
  destruct (sink_failure_does_not_block Examples.offline_classifier_sq true true
              Examples.failing_sink Examples.storing_sink Examples.arrived_taxi)
    as (taxi' & fx1 & fx2 & H1 & H2 & H3 & H4 & _).
  exists taxi', fx1, fx2.
  split; [exact H1|]. split; [exact H2|]. split; [exact H3|].
  apply H4. vm_compute. discriminate.
Defined.

(** *** A tick that covers the whole route *)







(** *** Searching taxis by zone *)

Lemma dict_get_in {V : Type} (d : dict V) k v :
  NoDup (dict_keys d) -> In (k, v) d -> dict_get d k = Some v.
Proof.
  induction d as [|[k' v'] d IH]; intros Hnd Hin; [destruct Hin|].
  simpl in *. inversion Hnd as [|? ? Hnotin Hnd']; subst.
  destruct Hin as [E|Hin].
  - injection E as -> ->. now rewrite String.eqb_refl.
  - destruct (String.eqb_spec k k') as [->|_].
    + exfalso. apply Hnotin. apply (in_map fst) in Hin. exact Hin.
    + now apply IH.
Qed.

Lemma status_of_stored taxis taxi :
  Consistent taxis -> In taxi (dict_values taxis) ->
  get_taxi_status taxis (taxi_id taxi) = Some (status_of taxi).
Proof.
  intros (Hnd & Hid) Hin. unfold dict_values in Hin.
  apply in_map_iff in Hin. destruct Hin as ([k t] & E & Hin). simpl in E. subst t.
  unfold get_taxi_status. rewrite (Hid k taxi Hin).
  now rewrite (dict_get_in taxis k taxi Hnd Hin).
Qed.

(** The test never raises: [lower] is only reached on a string. *)
Lemma zone_matches_hit zone_name taxi :
  zone_matches zone_name taxi = Ok (zone_hit zone_name taxi).
Proof.
  unfold zone_matches, zone_hit.
  destruct (current_zone taxi) as [[|c z]|]; reflexivity.
Qed.

Lemma zone_hit_in_zone zone_name taxi :
  zone_hit zone_name taxi = true <-> InZone zone_name taxi.
Proof.
  unfold zone_hit, InZone, Substring.
  destruct (current_zone taxi) as [[|c z]|].
  - change (truthy (Some "")) with false. rewrite andb_false_l.
    split; [discriminate|]. intros (z & E & Hz & _). congruence.
  - change (truthy (Some (String c z))) with true. rewrite andb_true_l.
    rewrite str_in_spec. split.
    + intros H. exists (String c z). repeat split; [discriminate | exact H].
    + intros (z' & E & _ & H). injection E as <-. exact H.
  - split; [discriminate|]. intros (z & E & _). discriminate.
Qed.

(** For a non-empty query the zone need not be tested for emptiness: a
    zone that contains the query is non-empty. *)
Lemma in_zone_nonempty_query zone_name taxi :
  zone_name <> "" ->
  (InZone zone_name taxi <->
   exists z, current_zone taxi = Some z /\ Substring (lower zone_name) (lower z)).
Proof.
  intros Hq. unfold InZone. split.
  - intros (z & E & _ & H). now exists z.
  - intros (z & E & H). exists z. repeat split; [exact E | | exact H].
    intros ->. destruct H as (pre & post & H).
    destruct pre; [|discriminate]. simpl in H.
    destruct zone_name; [congruence | discriminate].
Qed.

Lemma search_fold taxis zone_name values : forall acc,
  fold_left
    (fun (acc : Result (list (option TaxiStatus))) (taxi : TaxiState) =>
       taxis_in_zone <- acc ;;
       hit <- zone_matches zone_name taxi ;;
       if (hit : bool)
       then Ok (taxis_in_zone ++ [get_taxi_status taxis (taxi_id taxi)])%list
       else Ok taxis_in_zone)
    values (Ok acc)
  = Ok (acc ++ map (fun t => get_taxi_status taxis (taxi_id t))
                 (filter (zone_hit zone_name) values))%list.
Proof.
  induction values as [|t values IH]; intros acc; simpl.
  - now rewrite app_nil_r.
  - rewrite zone_matches_hit. simpl. destruct (zone_hit zone_name t); simpl.
    + rewrite IH, <- app_assoc. reflexivity.
    + apply IH.
Qed.

(** C10, as the code has it.  The search never fails and returns, in the
    order of the dictionary, exactly the statuses of the taxis whose
    [current_zone] is a non-empty string containing the query as a
    substring, letter case ignored.  Taxis whose zone is [None] or the
    empty string are left out. *)
Theorem search_returns_taxis_in_zone :
  forall (taxis : dict TaxiState) (zone_name : string),
    Consistent taxis ->
    exists found,
      search_taxis_by_zone taxis zone_name = Ok found /\
      found = map (fun t => Some (status_of t))
                (filter (zone_hit zone_name) (dict_values taxis)) /\
      (forall s, In s found <->
                 exists t, In t (dict_values taxis) /\ InZone zone_name t /\
                           s = Some (status_of t)) /\
      (forall t, In t (dict_values taxis) -> current_zone t = None ->
                 zone_hit zone_name t = false).
Proof.
  intros taxis zone_name Hc.
  assert (E : map (fun t => get_taxi_status taxis (taxi_id t))
                (filter (zone_hit zone_name) (dict_values taxis))
              = map (fun t => Some (status_of t))
                  (filter (zone_hit zone_name) (dict_values taxis))).
  { apply map_ext_in. intros t Ht. apply filter_In in Ht.
    apply status_of_stored; [exact Hc | apply Ht]. }
  exists (map (fun t => Some (status_of t))
            (filter (zone_hit zone_name) (dict_values taxis))).
  split.
  { unfold search_taxis_by_zone. rewrite search_fold, E. reflexivity. }
  split; [reflexivity|]. split.
  - intros s. rewrite in_map_iff. split.
    + intros (t & Es & Ht). apply filter_In in Ht. destruct Ht as (Hin & Hhit).
      exists t. repeat split; [exact Hin | now apply zone_hit_in_zone | now symmetry].
    + intros (t & Hin & Hz & ->). exists t. split; [reflexivity|].
      apply filter_In. split; [exact Hin | now apply zone_hit_in_zone].
  - intros t _ Hnone. unfold zone_hit. now rewrite Hnone.
Qed.

Lemma search_returns_taxis_in_zone_witness :
  exists found,
    search_taxis_by_zone
      [("taxi_a", Examples.taxi_a Examples.offline_classifier_sq);
       ("taxi_p", Examples.parked_taxi); ("taxi_u", Examples.unnamed_zone_taxi)]
      "ISLAND" = Ok found /\
    found = [Some (status_of (Examples.taxi_a Examples.offline_classifier_sq))].
Proof.
  destruct (search_returns_taxis_in_zone
              [("taxi_a", Examples.taxi_a Examples.offline_classifier_sq);
               ("taxi_p", Examples.parked_taxi);
               ("taxi_u", Examples.unnamed_zone_taxi)] "ISLAND")
    as (found & Hrun & Hfound & _).
  - split.
    + repeat constructor; simpl; intuition discriminate.
    + intros k t [E|[E|[E|[]]]]; injection E as <- <-; reflexivity.
  - exists found. split; [exact Hrun|]. rewrite Hfound. vm_compute. reflexivity.
Defined.

(** C10 as stated fails: a taxi whose zone is the empty string has a
    non-null zone that contains the empty query, and the search for the
    empty query leaves it out. *)
Lemma search_skips_unnamed_zone :
  current_zone Examples.unnamed_zone_taxi = Some "" /\
  Substring (lower "") (lower "") /\
  Consistent [("taxi_u", Examples.unnamed_zone_taxi)] /\
  search_taxis_by_zone [("taxi_u", Examples.unnamed_zone_taxi)] "" = Ok [].
Proof.
  split; [reflexivity|]. split; [now exists "", ""|]. split; [|reflexivity].
  split.
  - repeat constructor. intros [].
  - intros k t [E|[]]. injection E as <- <-. reflexivity.
Qed.

End SimFacts.

(* ================================================================== *)
(** ** More on strings and dictionaries                                 *)
(* ================================================================== *)

Module PyMore.

Import Py.
Local Open Scope string_scope.

Lemma lower_upper_ascii c : lower_ascii (upper_ascii c) = lower_ascii c.
Proof. destruct c as [[] [] [] [] [] [] [] []]; reflexivity. Qed.


Lemma lower_underscore_ascii c :
  lower_ascii (if Ascii.eqb (lower_ascii c) " " then "_"%char else lower_ascii c)
  = (if Ascii.eqb (lower_ascii c) " " then "_"%char else lower_ascii c).
Proof. destruct c as [[] [] [] [] [] [] [] []]; reflexivity. Qed.

Lemma lower_upper s : lower (upper s) = lower s.
Proof.
  induction s as [|c s IH]; [reflexivity|].
  unfold lower, upper in *. simpl. now rewrite lower_upper_ascii, IH.
Qed.


(** A lowered string with its spaces replaced is left alone by [lower]. *)
Lemma lower_replace_lower s :
  lower (replace_char " " "_" (lower s)) = replace_char " " "_" (lower s).
Proof.
  induction s as [|c s IH]; [reflexivity|].
  unfold lower, replace_char in *. simpl.
  now rewrite lower_underscore_ascii, IH.
Qed.

Lemma dict_get_set_same {V : Type} (d : dict V) k v :
  dict_get (dict_set d k v) k = Some v.
Proof.
  induction d as [|[k' v'] d IH]; simpl.
  - now rewrite String.eqb_refl.
  - destruct (String.eqb_spec k k') as [->|Hne]; simpl.
    + now rewrite String.eqb_refl.
    + destruct (String.eqb_spec k k'); [contradiction | exact IH].
Qed.

Lemma dict_get_set_other {V : Type} (d : dict V) k k' v :
  k <> k' -> dict_get (dict_set d k v) k' = dict_get d k'.
Proof.
  intros Hne. induction d as [|[k0 v0] d IH]; simpl.
  - destruct (String.eqb_spec k' k); [congruence | reflexivity].
  - destruct (String.eqb_spec k k0) as [->|Hk]; simpl.
    + destruct (String.eqb_spec k' k0); [congruence | reflexivity].
    + destruct (String.eqb_spec k' k0); [reflexivity | exact IH].
Qed.

(** Storing under a new key appends the entry. *)
Lemma dict_set_fresh {V : Type} (d : dict V) k v :
  ~ In k (dict_keys d) -> dict_set d k v = (d ++ [(k, v)])%list.
Proof.
  induction d as [|[k' v'] d IH]; intros Hk; simpl; [reflexivity|].
  simpl in Hk. destruct (String.eqb_spec k k') as [->|_].
  - exfalso. apply Hk. now left.
  - rewrite IH; [reflexivity|]. intros H. apply Hk. now right.
Qed.

Lemma dict_get_none {V : Type} (d : dict V) k :
  ~ In k (dict_keys d) -> dict_get d k = None.
Proof.
  induction d as [|[k' v'] d IH]; intros Hk; simpl; [reflexivity|].
  simpl in Hk. destruct (String.eqb_spec k k') as [->|_].
  - exfalso. apply Hk. now left.
  - apply IH. intros H. apply Hk. now right.
Qed.

Lemma dict_get_stored {V : Type} (d : dict V) k v :
  NoDup (dict_keys d) -> In (k, v) d -> dict_get d k = Some v.
Proof.
  induction d as [|[k' v'] d IH]; intros Hnd Hin; [destruct Hin|].
  simpl in *. inversion Hnd as [|? ? Hnotin Hnd']; subst.
  destruct Hin as [E|Hin].
  - injection E as -> ->. now rewrite String.eqb_refl.
  - destruct (String.eqb_spec k k') as [->|_].
    + exfalso. apply Hnotin. apply (in_map fst) in Hin. exact Hin.
    + now apply IH.
Qed.

Lemma nodupb_NoDup (l : list string) :
  GeofenceQueries.nodupb l = true -> NoDup l.
Proof.
  induction l as [|x l IH]; intros H; [constructor|].
  simpl in H. apply andb_true_iff in H. destruct H as (Hx & Hl). constructor.
  - intros Hin. apply negb_true_iff in Hx.
    assert (E : existsb (String.eqb x) l = true).
    { apply existsb_exists. exists x. split; [exact Hin | apply String.eqb_refl]. }
    congruence.
  - now apply IH.
Qed.

End PyMore.

(* ================================================================== *)
(** ** The zone registry                                                *)
(* ================================================================== *)

Module GeofenceMore.

Import Py Geofence GeofenceSpec GeofenceQueries PyMore.
Local Open Scope string_scope.
Local Open Scope list_scope.

(** *** Registration *)

Lemma dict_keys_app {V : Type} (d d' : dict V) :
  dict_keys (d ++ d') = (dict_keys d ++ dict_keys d')%list.
Proof. unfold dict_keys. apply map_app. Qed.

Lemma register_zone_fresh d entry :
  NoDup (dict_keys d ++ entry_keys entry) ->
  register_zone d entry = (d ++ registered entry)%list.
Proof.
  intros Hnd. destruct entry as [abbr data]. unfold register_zone, registered.
  fold (zone_id_of (name (make_zone abbr data))).
  unfold entry_keys, zone_of in *. simpl fst in *. simpl snd in *.
  set (z := make_zone abbr data) in *.
  assert (H1 : ~ In abbr (dict_keys d)).
  { intros Hin. apply NoDup_remove_2 in Hnd. apply Hnd.
    apply in_or_app. now left. }
  assert (H2 : ~ In (zone_id_of (name z)) (dict_keys (d ++ [(abbr, z)]))).
  { rewrite dict_keys_app. simpl.
    replace (dict_keys d ++ [abbr; zone_id_of (name z)])%list
      with ((dict_keys d ++ [abbr]) ++ [zone_id_of (name z)])%list in Hnd
      by (rewrite <- app_assoc; reflexivity).
    apply NoDup_remove_2 in Hnd. now rewrite app_nil_r in Hnd. }
  rewrite (dict_set_fresh d abbr z H1).
  rewrite (dict_set_fresh _ _ z H2). now rewrite <- app_assoc.
Qed.

Lemma registered_keys entry : dict_keys (registered entry) = entry_keys entry.
Proof. reflexivity. Qed.

Lemma flat_registered_keys table :
  dict_keys (flat_map registered table) = flat_map entry_keys table.
Proof.
  induction table as [|e table IH]; [reflexivity|].
  simpl. unfold dict_keys in *. simpl. now rewrite IH.
Qed.

Lemma initialize_fold table : forall d,
  NoDup (dict_keys d ++ flat_map entry_keys table) ->
  fold_left register_zone table d = (d ++ flat_map registered table)%list.
Proof.
  induction table as [|e table IH]; intros d Hnd; cbn [fold_left flat_map] in *.
  - now rewrite app_nil_r.
  - assert (He : NoDup (dict_keys d ++ entry_keys e)).
    { rewrite app_assoc in Hnd. apply NoDup_app_remove_r in Hnd. exact Hnd. }
    rewrite (register_zone_fresh d e He), IH.
    + now rewrite <- app_assoc.
    + rewrite dict_keys_app, registered_keys, <- app_assoc. exact Hnd.
Qed.

Lemma initialize_registered table :
  NoDup (flat_map entry_keys table) ->
  _initialize_fallback_zones table = flat_map registered table.
Proof.
  intros Hnd. unfold _initialize_fallback_zones.
  now rewrite (initialize_fold table [] Hnd).
Qed.

Lemma registered_in table abbr data :
  In (abbr, data) table ->
  In (abbr, make_zone abbr data) (flat_map registered table) /\
  In (zone_id_of (name (make_zone abbr data)), make_zone abbr data)
     (flat_map registered table).
Proof.
  intros Hin. split; apply in_flat_map; exists (abbr, data);
    (split; [exact Hin|]); unfold registered, zone_of; simpl; auto.
Qed.

Lemma zone_of_id entry : id (zone_of entry) = fst entry.
Proof. destruct entry as [abbr [[n lat] lng]]. reflexivity. Qed.

Lemma zone_of_state_abbr entry : state_abbr (zone_of entry) = upper (fst entry).
Proof. destruct entry as [abbr [[n lat] lng]]. reflexivity. Qed.

Lemma registered_values table :
  dict_values (flat_map registered table)
  = flat_map (fun e => [zone_of e; zone_of e]) table.
Proof.
  induction table as [|e table IH]; [reflexivity|].
  unfold dict_values in *. cbn [flat_map]. rewrite map_app, IH. reflexivity.
Qed.

Lemma abbreviations_distinct table :
  NoDup (flat_map entry_keys table) -> NoDup (map fst table).
Proof.
  induction table as [|e table IH]; intros Hnd; [constructor|].
  cbn [flat_map map] in *. unfold entry_keys in Hnd at 1. simpl in Hnd.
  inversion Hnd as [|? ? Hnotin Hnd1]; subst.
  inversion Hnd1 as [|? ? _ Hnd2]; subst.
  constructor; [|now apply IH].
  intros Hin. apply Hnotin. right.
  apply in_map_iff in Hin. destruct Hin as (e' & E & Hin).
  apply in_flat_map. exists e'. split; [exact Hin|]. left. exact E.
Qed.

(** *** The list of all zones *)

Lemma seen_in zone_id seen_ids :
  seen zone_id seen_ids = true <-> In zone_id seen_ids.
Proof.
  unfold seen. rewrite existsb_exists. split.
  - intros (x & Hin & E). apply String.eqb_eq in E. now subst.
  - intros Hin. exists zone_id. split; [exact Hin | apply String.eqb_refl].
Qed.

Lemma unique_step_new acc_ids unique zone :
  ~ In (id zone) acc_ids ->
  unique_step (acc_ids, unique) zone = (id zone :: acc_ids, unique ++ [zone]).
Proof.
  intros H. unfold unique_step. destruct (seen (id zone) acc_ids) eqn:E.
  - apply seen_in in E. contradiction.
  - reflexivity.
Qed.

Lemma unique_step_old acc_ids unique zone :
  In (id zone) acc_ids ->
  unique_step (acc_ids, unique) zone = (acc_ids, unique).
Proof.
  intros H. unfold unique_step. apply seen_in in H. now rewrite H.
Qed.

(** The loop of [get_all_zones] from any state in which the identifiers
    seen are those of the zones kept. *)
Lemma unique_fold zones : forall unique,
  NoDup (map id unique) ->
  exists extra,
    fold_left unique_step zones (rev (map id unique), unique)
    = (rev (map id (unique ++ extra)), unique ++ extra) /\
    NoDup (map id (unique ++ extra)) /\
    (forall z, In z extra ->
       exists before after,
         zones = before ++ z :: after /\
         ~ In (id z) (map id before) /\ ~ In (id z) (map id unique)) /\
    (forall z, In z zones -> In (id z) (map id (unique ++ extra))).
Proof.
  induction zones as [|z zones IH]; intros unique Hnd.
  - exists []. rewrite app_nil_r. repeat split; auto; intros ? [].
  - cbn [fold_left].
    destruct (in_dec string_dec (id z) (map id unique)) as [Hold|Hnew].
    + rewrite unique_step_old by (now apply -> in_rev).
      destruct (IH unique Hnd) as (extra & Hrun & Hnd' & Hfirst & Hcover).
      exists extra. split; [exact Hrun|]. split; [exact Hnd'|]. split.
      * intros z' Hin. destruct (Hfirst z' Hin) as (b & a & -> & Hb & Hu).
        exists (z :: b), a. repeat split; [| exact Hu].
        simpl. intros [E|H]; [|contradiction]. apply Hu. now rewrite <- E.
      * intros z' [<-|Hin]; [|now apply Hcover].
        rewrite map_app. apply in_or_app. now left.
    + rewrite unique_step_new by (intros H; apply Hnew; now apply in_rev).
      assert (Hnd1 : NoDup (map id (unique ++ [z]))).
      { rewrite map_app. simpl. apply NoDup_app; [exact Hnd | |].
        - constructor; [intros [] | constructor].
        - intros a Ha [<-|[]]. contradiction. }
      assert (E : id z :: rev (map id unique) = rev (map id (unique ++ [z])))
        by (rewrite map_app, rev_app_distr; reflexivity).
      rewrite E.
      destruct (IH (unique ++ [z]) Hnd1) as (extra & Hrun & Hnd' & Hfirst & Hcover).
      exists (z :: extra).
      replace (unique ++ z :: extra) with ((unique ++ [z]) ++ extra)
        by (rewrite <- app_assoc; reflexivity).
      split; [exact Hrun|]. split; [exact Hnd'|]. split.
      * intros z' [<-|Hin].
        -- exists [], zones. repeat split; [intros [] | exact Hnew].
        -- destruct (Hfirst z' Hin) as (b & a & -> & Hb & Hu).
           rewrite map_app in Hu. simpl in Hu.
           exists (z :: b), a. repeat split.
           ++ simpl. intros [E'|H]; [|contradiction].
              apply Hu. apply in_or_app. right. now left.
           ++ intros H. apply Hu. apply in_or_app. now left.
      * intros z' [<-|Hin]; [|now apply Hcover].
        rewrite !map_app. apply in_or_app. left. apply in_or_app. right. now left.
Qed.

Lemma unique_doubled table : forall unique,
  NoDup (map id unique ++ map fst table) ->
  fold_left unique_step (flat_map (fun e => [zone_of e; zone_of e]) table)
    (rev (map id unique), unique)
  = (rev (map id (unique ++ map zone_of table)), unique ++ map zone_of table).
Proof.
  induction table as [|e table IH]; intros unique Hnd.
  - simpl. now rewrite app_nil_r.
  - cbn [flat_map map app fold_left] in *.
    assert (Hnew : ~ In (id (zone_of e)) (rev (map id unique))).
    { rewrite zone_of_id. intros H. apply in_rev in H.
      apply NoDup_remove_2 in Hnd. apply Hnd. apply in_or_app. now left. }
    rewrite (unique_step_new _ _ _ Hnew).
    rewrite unique_step_old by (now left).
    assert (E : id (zone_of e) :: rev (map id unique)
                = rev (map id (unique ++ [zone_of e])))
      by (rewrite map_app, rev_app_distr; reflexivity).
    rewrite E, IH.
    + now rewrite <- app_assoc.
    + rewrite map_app, <- app_assoc. simpl. now rewrite zone_of_id.
Qed.

(** X1. A table whose keys (abbreviations and lowered, underscored
    names) are all different and whose abbreviations are in lower case is
    registered in full: every state is stored twice in a row, is found by
    [get_zone_by_id] under its abbreviation, under its upper-case
    [state_abbr] and under the identifier the views derive from its name,
    and [get_all_zones] lists the states once each in declared order.  An
    identifier whose lowered form is not a key finds nothing. *)
Theorem registered_zones_found :
  forall (table : list (string * (string * Q * Q))),
    NoDup (flat_map entry_keys table) ->
    (forall e, In e table -> lower (fst e) = fst e) ->
    let zones := _initialize_fallback_zones table in
    dict_values zones = flat_map (fun e => [zone_of e; zone_of e]) table /\
    get_all_zones zones = map zone_of table /\
    (forall abbr data, In (abbr, data) table ->
       get_zone_by_id zones abbr = Some (make_zone abbr data) /\
       get_zone_by_id zones (state_abbr (make_zone abbr data))
       = Some (make_zone abbr data) /\
       get_zone_by_id zones (zone_id_of (name (make_zone abbr data)))
       = Some (make_zone abbr data)) /\
    (forall zone_id, ~ In (lower zone_id) (flat_map entry_keys table) ->
       get_zone_by_id zones zone_id = None).
Proof.
  intros table Hnd Hlow zones. unfold zones.
  rewrite (initialize_registered table Hnd).
  assert (Hkeys : NoDup (dict_keys (flat_map registered table)))
    by (rewrite flat_registered_keys; exact Hnd).
  split; [apply registered_values|]. split.
  { unfold get_all_zones. rewrite registered_values.
    change (@nil string, @nil StateZone)
      with (rev (map id (@nil StateZone)), @nil StateZone).
    rewrite (unique_doubled table []); [reflexivity|].
    simpl. now apply abbreviations_distinct. }
  split.
  - intros abbr data Hin.
    destruct (registered_in table abbr data Hin) as (H1 & H2).
    pose proof (Hlow _ Hin) as Habbr. simpl in Habbr.
    unfold get_zone_by_id. repeat split.
    + rewrite Habbr. now apply dict_get_stored.
    + change (make_zone abbr data) with (zone_of (abbr, data)) at 1.
      rewrite zone_of_state_abbr. simpl fst.
      rewrite lower_upper, Habbr. now apply dict_get_stored.
    + unfold zone_id_of at 1. rewrite lower_replace_lower.
      now apply dict_get_stored.
  - intros zone_id Hmiss. unfold get_zone_by_id. apply dict_get_none.
    now rewrite flat_registered_keys.
Qed.

Lemma fallback_states_keys : NoDup (flat_map entry_keys fallback_states).
Proof. apply nodupb_NoDup. vm_compute. reflexivity. Qed.

Lemma fallback_states_lower e : In e fallback_states -> lower (fst e) = fst e.
Proof.
  revert e. apply Forall_forall.
  repeat (constructor; [reflexivity|]). constructor.
Qed.

(** The service's registry: Rhode Island is found under ["RI"] and under
    ["rhode_island"], and not under its display name, which has a space. *)
Lemma registered_zones_found_witness :
  get_zone_by_id state_zones "RI"
  = Some (make_zone "ri" ("Rhode Island", 41.580095, -71.477429)%Q) /\
  get_zone_by_id state_zones "rhode_island"
  = Some (make_zone "ri" ("Rhode Island", 41.580095, -71.477429)%Q) /\
  get_zone_by_id state_zones "Rhode Island" = None /\
  get_all_zones state_zones = declared_zones.
Proof.
  destruct (registered_zones_found fallback_states fallback_states_keys
              fallback_states_lower) as (_ & Hall & Hget & Hnone).
  destruct (Hget "ri" ("Rhode Island", 41.580095, -71.477429)%Q)
    as (_ & Habbr & Hname).
  { vm_compute. tauto. }
  split; [exact Habbr|]. split; [exact Hname|]. split; [|exact Hall].
  apply Hnone. vm_compute. intuition discriminate.
Defined.

(** X2. For any registry, [get_all_zones] returns zones with pairwise
    different identifiers; each of them is the first zone of the
    dictionary's values with its identifier; and every identifier that
    occurs among the values is represented. *)
Theorem all_zones_first_of_each_id :
  forall (state_zones : dict StateZone),
    let zones := get_all_zones state_zones in
    NoDup (map id zones) /\
    (forall z, In z zones ->
       exists before after,
         dict_values state_zones = before ++ z :: after /\
         ~ In (id z) (map id before)) /\
    (forall z, In z (dict_values state_zones) -> In (id z) (map id zones)).
Proof.
  intros state_zones zones. unfold zones, get_all_zones.
  destruct (unique_fold (dict_values state_zones) [] (NoDup_nil _))
    as (extra & Hrun & Hnd & Hfirst & Hcover).
  simpl in Hrun. rewrite Hrun. simpl in *. split; [exact Hnd|]. split.
  - intros z Hin. destruct (Hfirst z Hin) as (b & a & E & Hb & _).
    now exists b, a.
  - exact Hcover.
Qed.

(** *** Labels of the fallback classifier *)

Lemma classified_label zones lng lat label :
  _classify_point_fallback zones lng lat = Some label ->
  exists z, In z zones /\ name z = label /\ (distance lng lat z < 2)%R.
Proof.
  intros H. destruct zones as [|z0 zones'] eqn:Ez.
  - rewrite GeofenceFacts.classify_empty in H. discriminate.
  - destruct (GeofenceFacts.FirstMin_exists lng lat (z0 :: zones')) as (z & Hz);
      [discriminate|].
    rewrite (GeofenceFacts.classify_first_min lng lat _ z Hz) in H.
    destruct (Rlt_dec (distance lng lat z) 2) as [Hlt|_]; [|discriminate].
    injection H as <-. exists z. repeat split; [|exact Hlt].
    apply (GeofenceFacts.FirstMin_in lng lat _ z Hz).
Qed.

(** X3. What the fallback classifier returns on the registry of a table
    with distinct keys is the name of a registered state, and the
    identifier the location views derive from that name,
    [name.lower().replace(' ', '_')], finds that state again with
    [get_zone_by_id]. *)
Theorem classified_label_resolves :
  forall (table : list (string * (string * Q * Q))) (longitude latitude : Q)
         (label : string),
    NoDup (flat_map entry_keys table) ->
    _classify_point_fallback (dict_values (_initialize_fallback_zones table))
      longitude latitude = Some label ->
    exists z,
      In z (map zone_of table) /\
      name z = label /\
      get_zone_by_id (_initialize_fallback_zones table) (zone_id_of label) = Some z.
Proof.
  intros table longitude latitude label Hnd Hc.
  rewrite (initialize_registered table Hnd) in *.
  destruct (classified_label _ _ _ _ Hc) as (z & Hin & Hname & _).
  rewrite registered_values in Hin. apply in_flat_map in Hin.
  destruct Hin as ([abbr data] & He & Hz).
  assert (E : z = make_zone abbr data).
  { destruct Hz as [<-|[<-|[]]]; reflexivity. }
  subst z. exists (make_zone abbr data). split.
  { apply in_map_iff. now exists (abbr, data). }
  split; [exact Hname|].
  rewrite <- Hname. unfold get_zone_by_id, zone_id_of at 1.
  rewrite lower_replace_lower. apply dict_get_stored.
  - rewrite flat_registered_keys. exact Hnd.
  - apply (registered_in table abbr data He).
Qed.

Lemma classified_label_resolves_witness :
  exists z,
    In z (map zone_of fallback_states) /\
    name z = "Rhode Island" /\
    get_zone_by_id (_initialize_fallback_zones fallback_states)
      (zone_id_of "Rhode Island") = Some z.
Proof.
  apply (classified_label_resolves fallback_states (-71.477429)%Q 41.580095%Q
           "Rhode Island" fallback_states_keys).
  rewrite GeofenceFacts.classify_sq_correct. vm_compute. reflexivity.
Defined.

Lemma fallback_step_twice lng lat acc z :
  fallback_step lng lat (fallback_step lng lat acc z) z
  = fallback_step lng lat acc z.
Proof.
  destruct acc as [m c]. unfold fallback_step.
  destruct (Dist_lt_dec (Fin (distance lng lat z)) m) as [Hlt|Hge] eqn:D.
  - destruct (Dist_lt_dec _ (Fin (distance lng lat z))) as [H|_]; [|reflexivity].
    simpl in H. elim (Rlt_irrefl _ H).
  - now rewrite D.
Qed.

Lemma fallback_scan_doubled lng lat zones : forall acc,
  fold_left (fallback_step lng lat) (flat_map (fun z => [z; z]) zones) acc
  = fold_left (fallback_step lng lat) zones acc.
Proof.
  induction zones as [|z zones IH]; intros acc; [reflexivity|].
  cbn [flat_map app fold_left]. rewrite fallback_step_twice. apply IH.
Qed.

(** X4. Storing every state under two keys does not disturb the fallback
    classifier: a list in which every zone is repeated classifies every
    point as the list without repeats does, and so the registry of a
    table with distinct keys classifies as the declared table itself. *)
Theorem fallback_ignores_repeats :
  forall (table : list (string * (string * Q * Q))) (zones : list StateZone)
         (longitude latitude : Q),
    _classify_point_fallback (flat_map (fun z => [z; z]) zones) longitude latitude
    = _classify_point_fallback zones longitude latitude /\
    (NoDup (flat_map entry_keys table) ->
     _classify_point_fallback (dict_values (_initialize_fallback_zones table))
       longitude latitude
     = _classify_point_fallback (map zone_of table) longitude latitude).
Proof.
  intros table zones longitude latitude.
  assert (H : forall zs,
             _classify_point_fallback (flat_map (fun z => [z; z]) zs)
               longitude latitude
             = _classify_point_fallback zs longitude latitude).
  { intros zs. unfold _classify_point_fallback, fallback_scan.
    now rewrite fallback_scan_doubled. }
  split; [apply H|].
  intros Hnd. rewrite (initialize_registered table Hnd), registered_values.
  rewrite <- (H (map zone_of table)). f_equal.
  clear. induction table as [|e table IH]; [reflexivity|].
  cbn [flat_map map app]. now rewrite IH.
Qed.

Lemma fallback_ignores_repeats_witness :
  _classify_point_fallback (dict_values state_zones) (-71.429933)%Q 41.993653%Q
  = _classify_point_fallback declared_zones (-71.429933)%Q 41.993653%Q.
Proof.
  apply (fallback_ignores_repeats fallback_states [] (-71.429933)%Q 41.993653%Q).
  exact fallback_states_keys.
Defined.



End GeofenceMore.

(* ================================================================== *)
(** ** The simulator over time                                          *)
(* ================================================================== *)

Module SimMore.

Import Py Sim SimSpec SimLoop SimLoopSpec PyFacts PyMore SimFacts.
Local Open Scope string_scope.
Local Open Scope Q_scope.
Local Open Scope list_scope.

(** *** What each half of a tick leaves alone *)

Lemma complete_result table taxi u taxi' :
  _complete_current_route table taxi u = Ok taxi' ->
  exists i next,
    taxi' = restarted taxi i next u.
Proof.
  unfold _complete_current_route. destruct (_ <? _)%Z.
  - destruct (index _ _) as [next|e]; simpl; [|discriminate].
    intros H. injection H as <-. now eexists _, next.
  - destruct (index _ _) as [next|e]; simpl; [|discriminate].
    intros H. injection H as <-. now eexists _, next.
Qed.

Lemma update_keeps_id table taxi taxi' dt u :
  _update_taxi_position table taxi dt u = Ok taxi' ->
  taxi_id taxi' = taxi_id taxi.
Proof.
  intros H. destruct (current_route taxi) as [route|] eqn:Hr.
  - rewrite (update_on_route table taxi route dt u Hr) in H.
    destruct (moved_frame taxi route dt) as (Hid & _).
    destruct (Qle_bool _ _).
    + destruct (complete_result _ _ _ _ H) as (i & next & ->). exact Hid.
    + now injection H as <-.
  - unfold _update_taxi_position in H. rewrite Hr in H. now injection H as <-.
Qed.

(** X6. The position update never touches what belongs to the tracker
    and the scheduler: whenever it returns, the taxi has the identifier,
    the current and previous zone and the [last_update] it had. *)
Theorem update_leaves_zones_alone :
  forall (table : dict (list TaxiRoute)) (taxi taxi' : TaxiState) (dt u : Q),
    _update_taxi_position table taxi dt u = Ok taxi' ->
    taxi_id taxi' = taxi_id taxi /\
    current_zone taxi' = current_zone taxi /\
    previous_zone taxi' = previous_zone taxi /\
    last_update taxi' = last_update taxi.
Proof.
  intros table taxi taxi' dt u H.
  destruct (current_route taxi) as [route|] eqn:Hr.
  - rewrite (update_on_route table taxi route dt u Hr) in H.
    destruct (moved_frame taxi route dt) as (Hid & _ & _ & _ & _ & Hz & Hp & Hl).
    destruct (Qle_bool _ _).
    + destruct (complete_result _ _ _ _ H) as (i & next & ->).
      simpl. now rewrite Hid, Hz, Hp, Hl.
    + injection H as <-. now rewrite Hid, Hz, Hp, Hl.
  - unfold _update_taxi_position in H. rewrite Hr in H.
    injection H as <-. repeat split.
Qed.

Lemma update_leaves_zones_alone_witness :
  exists taxi',
    _update_taxi_position taxi_routes
      (Examples.taxi_a Examples.offline_classifier_sq) 3600 0.5 = Ok taxi' /\
    route_index taxi' = 1%Z /\
    current_zone taxi' = Some "Rhode Island" /\
    previous_zone taxi' = None.
Proof.
  destruct (_update_taxi_position taxi_routes
              (Examples.taxi_a Examples.offline_classifier_sq) 3600 0.5)
    as [taxi'|e] eqn:E; [|vm_compute in E; discriminate].
  destruct (update_leaves_zones_alone _ _ _ _ _ E) as (_ & Hz & Hp & _).
  exists taxi'. split; [reflexivity|]. split.
  - vm_compute in E. injection E as <-. reflexivity.
  - split; [rewrite Hz | rewrite Hp]; reflexivity.
Defined.



(** *** The invariants of a taxi *)

Lemma well_formed_zones table taxi previous current now :
  WellFormed table taxi ->
  WellFormed table (set_last_update now (set_zones previous current taxi)).
Proof. intros [H1 H2 H3 H4 H5]. constructor; assumption. Qed.

Lemma well_formed_time table taxi now :
  WellFormed table taxi -> WellFormed table (set_last_update now taxi).
Proof. intros [H1 H2 H3 H4 H5]. constructor; assumption. Qed.

Lemma on_route_zones table taxi previous current now :
  OnRoute table taxi ->
  OnRoute table (set_last_update now (set_zones previous current taxi)).
Proof. intros (route & H). exists route. exact H. Qed.

Lemma on_route_time table taxi now :
  OnRoute table taxi -> OnRoute table (set_last_update now taxi).
Proof. intros (route & H). exists route. exact H. Qed.

(** One update of a taxi that satisfies both invariants. *)
Lemma update_keeps_on_route table taxi dt u :
  WellFormed table taxi -> OnRoute table taxi -> valid_tick (dt, u) ->
  exists taxi',
    _update_taxi_position table taxi dt u = Ok taxi' /\
    WellFormed table taxi' /\ OnRoute table taxi'.
Proof.
  intros Hwf (route & Hr & Hidx & Hs & Hdlat & Hdlng & Hlat & Hlng) Htick.
  destruct (update_keeps_well_formed table taxi dt u Hwf Htick) as (taxi' & Hup & Hwf').
  exists taxi'. split; [exact Hup|]. split; [exact Hwf'|].
  rewrite (update_on_route table taxi route dt u Hr) in Hup.
  destruct (moved_frame taxi route dt) as (Hid & Hi & Hc & _ & Hst & _).
  destruct (Qle_bool 1 (route_progress (moved taxi route dt))) eqn:E.
  - assert (Hi' : (0 <= route_index (moved taxi route dt)
                   < route_count table (moved taxi route dt))%Z).
    { rewrite Hi, (route_count_same_id table taxi _ Hid). apply (wf_index _ _ Hwf). }
    destruct (complete_restarts table (moved taxi route dt) u Hi')
      as (next & Hnext & Hc').
    rewrite Hc' in Hup. injection Hup as <-.
    exists next. simpl. repeat split; try reflexivity.
    + exact Hnext.
    + ring.
    + ring.
  - injection Hup as <-. exists route.
    split; [now rewrite Hc|].
    split; [now rewrite (routes_of_same_id table taxi _ Hid), Hi|].
    split; [now rewrite Hst|].
    unfold moved. rewrite Hs.
    change (String.eqb "pickup" "pickup") with true. cbv iota.
    repeat split; try assumption; reflexivity.
Qed.

Lemma run_updates_keep_on_route table ticks : forall taxi,
  WellFormed table taxi -> OnRoute table taxi -> Forall valid_tick ticks ->
  exists taxi',
    run_updates table taxi ticks = Ok taxi' /\
    WellFormed table taxi' /\ OnRoute table taxi'.
Proof.
  induction ticks as [|[dt u] ticks IH]; intros taxi Hwf Hon Hticks.
  - now exists taxi.
  - inversion Hticks as [|tk tks Htk Htks]; subst.
    destruct (update_keeps_on_route table taxi dt u Hwf Hon Htk)
      as (taxi1 & H1 & Hwf1 & Hon1).
    destruct (IH taxi1 Hwf1 Hon1 Htks) as (taxi' & Hrun & Hwf' & Hon').
    exists taxi'. simpl. rewrite H1. simpl.
    split; [exact Hrun|]. split; assumption.
Qed.

Lemma between_endpoints a b p x :
  0 <= p -> p <= 1 -> x == a + (b - a) * p -> Between a b x.
Proof.
  intros H0 H1 Hx. unfold Between.
  destruct (Qlt_le_dec b a) as [Hba|Hab].
  - right. split; rewrite Hx; nra.
  - left. split; rewrite Hx; nra.
Qed.

(** *** Initialisation *)

Lemma initialize_by_steps classify table now rng :
  _initialize_taxis classify table now rng
  = fst (fold_left (init_step classify now rng) table ([], O)).
Proof. reflexivity. Qed.

Lemma initial_taxi_invariants classify table k first rest now u :
  dict_get table k = Some (first :: rest) ->
  0 <= u -> u < 1 ->
  let taxi := initial_taxi classify k first now u in
  WellFormed table taxi /\ OnRoute table taxi /\
  600 <= speed_kmh taxi /\ speed_kmh taxi <= 1200.
Proof.
  intros Hget Hu0 Hu1 taxi.
  destruct (uniform_range 600 1200 u) as (Hlo & Hhi);
    [discriminate | exact Hu0 | exact Hu1 |].
  assert (Hroutes : routes_of table taxi = first :: rest).
  { unfold routes_of. simpl. now rewrite Hget. }
  split; [|split; [|split; assumption]].
  - constructor; simpl.
    + discriminate.
    + apply Qle_refl.
    + discriminate.
    + apply Qle_trans with 600; [discriminate | exact Hlo].
    + unfold route_count. rewrite Hroutes. simpl. lia.
  - exists first. simpl. rewrite Hroutes.
    repeat split; try reflexivity; ring.
Qed.

Lemma initialize_taxis_fold classify table now rng items : forall acc n,
  NoDup (dict_keys acc ++ dict_keys items) ->
  (forall k routes, In (k, routes) items -> dict_get table k = Some routes) ->
  (forall j, 0 <= rng j /\ rng j < 1) ->
  exists added m,
    fold_left (init_step classify now rng) items (acc, n) = (acc ++ added, m) /\
    dict_keys added = dict_keys (filter has_route items) /\
    forall k taxi, In (k, taxi) added ->
      exists first j, taxi = initial_taxi classify k first now (rng j) /\
                      WellFormed table taxi /\ OnRoute table taxi.
Proof.
  induction items as [|[k routes] items IH]; intros acc n Hnd Htab Hrng.
  - exists [], n. simpl. rewrite app_nil_r. repeat split. intros ? ? [].
  - assert (Hk : ~ In k (dict_keys acc)).
    { intros Hin. simpl in Hnd. apply NoDup_remove_2 in Hnd. apply Hnd.
      apply in_or_app. now left. }
    assert (Htab' : forall k' r, In (k', r) items -> dict_get table k' = Some r)
      by (intros k' r H; apply Htab; now right).
    cbn [fold_left]. destruct routes as [|first rest].
    + destruct (IH acc n) as (added & m & Hrun & Hkeys & Hall);
        [simpl in Hnd; now apply NoDup_remove_1 in Hnd | exact Htab' | exact Hrng |].
      exists added, m. split; [exact Hrun|]. split; [exact Hkeys|]. exact Hall.
    + unfold init_step at 2. rewrite (dict_set_fresh acc k _ Hk).
      set (taxi := initial_taxi classify k first now (rng n)).
      destruct (IH (acc ++ [(k, taxi)]) (S n)) as (added & m & Hrun & Hkeys & Hall).
      { unfold dict_keys in *. rewrite map_app, <- app_assoc. exact Hnd. }
      { exact Htab'. }
      { exact Hrng. }
      exists ((k, taxi) :: added), m. split.
      { rewrite Hrun, <- app_assoc. reflexivity. }
      split.
      { simpl. unfold dict_keys in *. simpl. now rewrite Hkeys. }
      intros k' t [E|Hin]; [|now apply Hall].
      injection E as <- <-. exists first, n. split; [reflexivity|].
      destruct (initial_taxi_invariants classify table k first rest now (rng n))
        as (Hwf & Hon & _);
        [apply Htab; now left | apply Hrng | apply Hrng |].
      now split.
Qed.

(** X8. From a route table with distinct keys, [_initialize_taxis] makes
    one taxi for every entry that has a route, in the order of the
    table and under the entry's key.  Every taxi it makes stands at the
    pickup of its first route with progress 0 and route index 0, has a
    speed between 600 and 1200 and its zone classified, and satisfies the
    invariants of the simulation. *)
Theorem initialized_taxis_well_formed :
  forall (classify : Q -> Q -> option string) (table : dict (list TaxiRoute))
         (now : Q) (rng : nat -> Q),
    NoDup (dict_keys table) ->
    (forall j, 0 <= rng j /\ rng j < 1) ->
    let taxis := _initialize_taxis classify table now rng in
    dict_keys taxis = dict_keys (filter has_route table) /\
    Consistent taxis /\
    forall k taxi, In (k, taxi) taxis ->
      WellFormed table taxi /\ OnRoute table taxi /\
      route_progress taxi = 0 /\ route_index taxi = 0%Z /\
      last_update taxi = now /\
      600 <= speed_kmh taxi /\ speed_kmh taxi <= 1200 /\
      current_zone taxi = classify (current_lng taxi) (current_lat taxi) /\
      previous_zone taxi = None.
Proof.
  intros classify table now rng Hnd Hrng taxis. unfold taxis.
  rewrite initialize_by_steps.
  destruct (initialize_taxis_fold classify table now rng table [] O)
    as (added & m & Hrun & Hkeys & Hall).
  { exact Hnd. }
  { intros k routes Hin. now apply dict_get_stored. }
  { exact Hrng. }
  unfold dict in *. rewrite Hrun. simpl. split; [exact Hkeys|].
  assert (Hsub : NoDup (dict_keys (filter has_route table))).
  { clear -Hnd. induction table as [|[k r] table IH]; [constructor|].
    simpl in *. inversion Hnd as [|? ? Hnotin Hnd']; subst.
    destruct (has_route (k, r)); [|now apply IH].
    simpl. constructor; [|now apply IH].
    intros Hin. apply Hnotin. unfold dict_keys in *.
    apply in_map_iff in Hin. destruct Hin as (x & E & Hx).
    apply filter_In in Hx. apply in_map_iff. exists x. split; [exact E | apply Hx]. }
  split.
  - split; [now rewrite Hkeys|].
    intros k taxi Hin. destruct (Hall k taxi Hin) as (first & j & -> & _).
    reflexivity.
  - intros k taxi Hin. destruct (Hall k taxi Hin) as (first & j & E & Hwf & Hon).
    split; [exact Hwf|]. split; [exact Hon|]. subst taxi.
    destruct (uniform_range 600 1200 (rng j)) as (Hlo & Hhi);
      [discriminate | apply Hrng | apply Hrng |].
    repeat split; assumption.
Qed.

(** The five taxis of the source, all drawn at the low end of the range. *)
Lemma initialized_taxis_well_formed_witness :
  dict_keys (_initialize_taxis Examples.offline_classifier_sq taxi_routes 0
               (fun _ => 0))
  = ["taxi_a"; "taxi_b"; "taxi_c"; "taxi_d"; "taxi_e"] /\
  Consistent (_initialize_taxis Examples.offline_classifier_sq taxi_routes 0
                (fun _ => 0)).
Proof.
  destruct (initialized_taxis_well_formed Examples.offline_classifier_sq
              taxi_routes 0 (fun _ => 0)) as (Hkeys & Hc & _).
  - apply nodupb_NoDup. reflexivity.
  - intros _. split; [discriminate | reflexivity].
  - split; [rewrite Hkeys; reflexivity | exact Hc].
Defined.

(** *** Ticks and passes *)

(** X9. A tick of a taxi that satisfies the invariants, at a time not
    before its [last_update], never raises.  It keeps the taxi's
    identifier and both invariants, stamps [last_update] with the time of
    the tick, and leaves [current_zone] equal to the classification of
    the position the taxi then has. *)
Theorem tick_keeps_invariants :
  forall (classify : Q -> Q -> option string) (avail : bool)
         (sink : TraceEvent -> Result (option string))
         (table : dict (list TaxiRoute)) (taxi : TaxiState)
         (current_time u : Q),
    WellFormed table taxi -> OnRoute table taxi ->
    last_update taxi <= current_time -> 0 <= u -> u < 1 ->
    exists taxi' fx,
      tick classify avail sink table taxi current_time u = Ok (taxi', fx) /\
      WellFormed table taxi' /\ OnRoute table taxi' /\
      taxi_id taxi' = taxi_id taxi /\
      last_update taxi' = current_time /\
      current_zone taxi' = classify (current_lng taxi') (current_lat taxi').
Proof.
  intros classify avail sink table taxi current_time u Hwf Hon Htime Hu0 Hu1.
  assert (Htick : valid_tick (current_time - last_update taxi, u)).
  { repeat split; simpl; [lra | exact Hu0 | exact Hu1]. }
  destruct (update_keeps_on_route table taxi _ u Hwf Hon Htick)
    as (taxi1 & Hup & Hwf1 & Hon1).
  pose proof (update_keeps_id table taxi taxi1 _ u Hup) as Hid.
  destruct (check_zone_transitions_spec classify avail sink taxi1)
    as (fx & Hrun & _).
  unfold tick. rewrite Hup. unfold bind at 1. rewrite Hrun. unfold bind.
  set (a := current_zone taxi1) in *.
  set (b := classify (current_lng taxi1) (current_lat taxi1)) in *.
  destruct (opt_str_eqb b a) eqn:E.
  - exists (set_last_update current_time taxi1), fx.
    split; [reflexivity|].
    split; [now apply well_formed_time|]. split; [now apply on_route_time|].
    split; [exact Hid|]. split; [reflexivity|].
    apply opt_str_eqb_eq in E. simpl. fold a b. now symmetry.
  - exists (set_last_update current_time (set_zones a b taxi1)), fx.
    split; [reflexivity|].
    split; [now apply well_formed_zones|]. split; [now apply on_route_zones|].
    split; [exact Hid|]. split; reflexivity.
Qed.

Lemma taxi_a_invariants :
  WellFormed taxi_routes (Examples.taxi_a Examples.offline_classifier_sq) /\
  OnRoute taxi_routes (Examples.taxi_a Examples.offline_classifier_sq).
Proof.
  destruct (initial_taxi_invariants Examples.offline_classifier_sq taxi_routes
              "taxi_a" Examples.rhode_island_to_massachusetts
              (List.tl (routes_of taxi_routes
                          (Examples.taxi_a Examples.offline_classifier_sq)))
              0 0) as (Hwf & Hon & _).
  - reflexivity.
  - discriminate.
  - reflexivity.
  - split; assumption.
Qed.

Lemma tick_keeps_invariants_witness :
  exists taxi' fx,
    tick Examples.offline_classifier_sq true Examples.failing_sink taxi_routes
      (Examples.taxi_a Examples.offline_classifier_sq) 2 0.5 = Ok (taxi', fx) /\
    WellFormed taxi_routes taxi' /\ OnRoute taxi_routes taxi' /\
    last_update taxi' = 2.
Proof.
  destruct taxi_a_invariants as (Hwf & Hon).
  destruct (tick_keeps_invariants Examples.offline_classifier_sq true
              Examples.failing_sink taxi_routes
              (Examples.taxi_a Examples.offline_classifier_sq) 2 0.5 Hwf Hon)
    as (taxi' & fx & Htick & Hwf' & Hon' & _ & Hl & _).
  - discriminate.
  - discriminate.
  - reflexivity.
  - exists taxi', fx.
    split; [exact Htick|]. split; [exact Hwf'|]. split; [exact Hon' | exact Hl].
Defined.

(** The invariant of a fleet at time [t]. *)
Lemma pass_from_keeps_fleet classify avail sink table current_time draw taxis :
  forall n,
  Forall (fun kt => WellFormed table (snd kt) /\ OnRoute table (snd kt) /\
                    last_update (snd kt) <= current_time) taxis ->
  (forall j, 0 <= draw j /\ draw j < 1) ->
  exists taxis' fx,
    pass_from classify avail sink table n taxis current_time draw
    = Ok (taxis', fx) /\
    Forall2 (fun kt kt' => fst kt' = fst kt /\
                           taxi_id (snd kt') = taxi_id (snd kt)) taxis taxis' /\
    Forall (fun kt => WellFormed table (snd kt) /\ OnRoute table (snd kt) /\
                      last_update (snd kt) = current_time /\
                      current_zone (snd kt)
                      = classify (current_lng (snd kt)) (current_lat (snd kt)))
           taxis'.
Proof.
  induction taxis as [|[key taxi] taxis IH]; intros n Hall Hdraw.
  - exists [], []. repeat split; constructor.
  - inversion Hall as [|? ? (Hwf & Hon & Ht) Hrest]; subst. simpl in *.
    destruct (tick_keeps_invariants classify avail sink table taxi current_time
                (draw n) Hwf Hon Ht (proj1 (Hdraw n)) (proj2 (Hdraw n)))
      as (taxi' & fx & Htick & Hwf' & Hon' & Hid & Hl & Hz).
    destruct (IH (S n) Hrest Hdraw) as (taxis' & fx' & Hpass & Hrel & Hinv).
    exists ((key, taxi') :: taxis'), (fx ++ fx').
    rewrite Htick. unfold bind at 1. rewrite Hpass. unfold bind.
    split; [reflexivity|]. split.
    + constructor; [split; [reflexivity | exact Hid] | exact Hrel].
    + constructor; [|exact Hinv]. simpl.
      split; [exact Hwf'|]. split; [exact Hon'|]. split; [exact Hl | exact Hz].
Qed.

Lemma related_keys (taxis taxis' : dict TaxiState) :
  Forall2 (fun kt kt' => fst kt' = fst kt /\
                         taxi_id (snd kt') = taxi_id (snd kt)) taxis taxis' ->
  dict_keys taxis' = dict_keys taxis /\
  (Consistent taxis -> Consistent taxis').
Proof.
  intros H. induction H as [|[k t] [k' t'] taxis taxis' (Hk & Hid) Hrel (IHk & IHc)].
  - split; [reflexivity | auto].
  - simpl in Hk, Hid. subst k'. split.
    + unfold dict_keys in *. simpl. now rewrite IHk.
    + intros (Hnd & Hids). split.
      * unfold dict_keys in *. simpl in *. rewrite IHk. exact Hnd.
      * intros k0 t0 [E|Hin].
        -- injection E as <- <-. rewrite Hid. apply Hids. now left.
        -- assert (Hc : Consistent taxis).
           { split; [now inversion Hnd | intros ? ? ?; apply Hids; now right]. }
           destruct (IHc Hc) as (_ & Hids'). now apply Hids'.
Qed.

(** X10. One pass of the simulation loop over a fleet in which every taxi
    satisfies the invariants and was last updated no later than the time
    of the pass never raises.  It keeps the keys of the dictionary, in
    order, and the identifier of every taxi (so a consistent dictionary
    stays consistent); afterwards every taxi satisfies the invariants
    again, carries the time of the pass as [last_update], and has its
    [current_zone] equal to the classification of its position. *)
Theorem simulation_pass_keeps_fleet :
  forall (classify : Q -> Q -> option string) (avail : bool)
         (sink : TraceEvent -> Result (option string))
         (table : dict (list TaxiRoute)) (taxis : dict TaxiState)
         (current_time : Q) (draw : nat -> Q),
    Forall (fun kt => WellFormed table (snd kt) /\ OnRoute table (snd kt) /\
                      last_update (snd kt) <= current_time) taxis ->
    (forall j, 0 <= draw j /\ draw j < 1) ->
    exists taxis' fx,
      simulation_pass classify avail sink table taxis current_time draw
      = Ok (taxis', fx) /\
      dict_keys taxis' = dict_keys taxis /\
      (Consistent taxis -> Consistent taxis') /\
      Forall (fun kt => WellFormed table (snd kt) /\ OnRoute table (snd kt) /\
                        last_update (snd kt) = current_time /\
                        current_zone (snd kt)
                        = classify (current_lng (snd kt)) (current_lat (snd kt)))
             taxis'.
Proof.
  intros classify avail sink table taxis current_time draw Hall Hdraw.
  destruct (pass_from_keeps_fleet classify avail sink table current_time draw
              taxis O Hall Hdraw) as (taxis' & fx & Hpass & Hrel & Hinv).
  destruct (related_keys taxis taxis' Hrel) as (Hkeys & Hc).
  exists taxis', fx.
  split; [exact Hpass|]. split; [exact Hkeys|]. split; [exact Hc | exact Hinv].
Qed.

(** The fleet of the source after its initialisation at time 0, passed
    over at time 2. *)
Lemma simulation_pass_keeps_fleet_witness :
  exists taxis' fx,
    simulation_pass Examples.offline_classifier_sq false Examples.storing_sink
      taxi_routes
      (_initialize_taxis Examples.offline_classifier_sq taxi_routes 0 (fun _ => 0))
      2 (fun _ => 0.5) = Ok (taxis', fx) /\
    dict_keys taxis' = ["taxi_a"; "taxi_b"; "taxi_c"; "taxi_d"; "taxi_e"].
Proof.
  destruct (initialized_taxis_well_formed Examples.offline_classifier_sq
              taxi_routes 0 (fun _ => 0)) as (Hkeys & _ & Hall).
  { apply nodupb_NoDup. reflexivity. }
  { intros _. split; [discriminate | reflexivity]. }
  destruct (simulation_pass_keeps_fleet Examples.offline_classifier_sq false
              Examples.storing_sink taxi_routes
              (_initialize_taxis Examples.offline_classifier_sq taxi_routes 0
                 (fun _ => 0)) 2 (fun _ => 0.5))
    as (taxis' & fx & Hpass & Hk & _).
  - apply Forall_forall. intros [k t] Hin.
    destruct (Hall k t Hin) as (Hwf & Hon & _ & _ & Hl & _).
    simpl. rewrite Hl. split; [exact Hwf|]. split; [exact Hon | discriminate].
  - intros _. split; [discriminate | reflexivity].
  - exists taxis', fx. split; [exact Hpass|]. rewrite Hk, Hkeys. reflexivity.
Defined.

(** *** The position along a route *)

(** X11. After any sequence of updates with non-negative elapsed times,
    a taxi that started within the invariants is still on the route its
    index points to, and its position lies between the pickup and the
    dropoff of that route, in latitude and in longitude. *)
Theorem taxi_stays_between_endpoints :
  forall (table : dict (list TaxiRoute)) (taxi : TaxiState)
         (ticks : list (Q * Q)),
    WellFormed table taxi -> OnRoute table taxi ->
    Forall valid_tick ticks ->
    exists taxi' route,
      run_updates table taxi ticks = Ok taxi' /\
      current_route taxi' = Some route /\
      index (routes_of table taxi') (route_index taxi') = Ok route /\
      Between (latitude (pickup route)) (latitude (dropoff route))
        (current_lat taxi') /\
      Between (longitude (pickup route)) (longitude (dropoff route))
        (current_lng taxi').
Proof.
  intros table taxi ticks Hwf Hon Hticks.
  destruct (run_updates_keep_on_route table ticks taxi Hwf Hon Hticks)
    as (taxi' & Hrun & Hwf' & (route & Hr & Hidx & _ & _ & _ & Hlat & Hlng)).
  exists taxi', route.
  split; [exact Hrun|]. split; [exact Hr|]. split; [exact Hidx|].
  split; apply (between_endpoints _ _ (route_progress taxi'));
    try assumption;
    try apply (wf_progress_lo _ _ Hwf'); apply (wf_progress_hi _ _ Hwf').
Qed.

Lemma taxi_stays_between_endpoints_witness :
  exists taxi' route,
    run_updates taxi_routes (Examples.taxi_a Examples.offline_classifier_sq)
      [(100, 0.5); (3600, 0.25); (40, 0.75)] = Ok taxi' /\
    current_route taxi' = Some route /\
    Between (latitude (pickup route)) (latitude (dropoff route))
      (current_lat taxi').
Proof.
  destruct taxi_a_invariants as (Hwf & Hon).
  destruct (taxi_stays_between_endpoints taxi_routes
              (Examples.taxi_a Examples.offline_classifier_sq)
              [(100, 0.5); (3600, 0.25); (40, 0.75)] Hwf Hon)
    as (taxi' & route & Hrun & Hr & _ & Hlat & _).
  - repeat constructor; discriminate.
  - exists taxi', route. split; [exact Hrun|]. split; [exact Hr | exact Hlat].
Defined.





(** *** Status queries *)

Lemma statuses_fold (taxis : dict TaxiState) keys : forall acc,
  NoDup (dict_keys acc ++ keys) ->
  fold_left
    (fun (acc : dict (option TaxiStatus)) (taxi_id : string) =>
       dict_set acc taxi_id (get_taxi_status taxis taxi_id))
    keys acc
  = acc ++ map (fun k => (k, get_taxi_status taxis k)) keys.
Proof.
  induction keys as [|k keys IH]; intros acc Hnd; simpl.
  - now rewrite app_nil_r.
  - assert (Hk : ~ In k (dict_keys acc)).
    { intros Hin. apply NoDup_remove_2 in Hnd. apply Hnd.
      apply in_or_app. now left. }
    rewrite (dict_set_fresh acc k _ Hk), IH.
    + now rewrite <- app_assoc.
    + unfold dict_keys in *. rewrite map_app, <- app_assoc. exact Hnd.
Qed.

(** X13. For a dictionary of taxis (its keys are distinct),
    [get_all_taxis_status] has the same keys in the same order and under
    each key the status of the taxi stored there, never [None]; an
    identifier that is not a key has no status, neither from
    [get_taxi_status] nor in the dictionary of all statuses. *)
Theorem all_statuses_cover_fleet :
  forall (taxis : dict TaxiState),
    NoDup (dict_keys taxis) ->
    get_all_taxis_status taxis
    = map (fun kt => (fst kt, Some (status_of (snd kt)))) taxis /\
    (forall k, ~ In k (dict_keys taxis) ->
       get_taxi_status taxis k = None /\
       dict_get (get_all_taxis_status taxis) k = None).
Proof.
  intros taxis Hnd.
  assert (E : get_all_taxis_status taxis
              = map (fun kt => (fst kt, Some (status_of (snd kt)))) taxis).
  { unfold get_all_taxis_status. rewrite (statuses_fold taxis _ []) by exact Hnd.
    simpl. unfold dict_keys. rewrite map_map. apply map_ext_in.
    intros [k t] Hin. simpl. unfold get_taxi_status.
    now rewrite (dict_get_stored taxis k t Hnd Hin). }
  split; [exact E|]. intros k Hk. split.
  - unfold get_taxi_status. now rewrite (dict_get_none taxis k Hk).
  - apply dict_get_none. rewrite E. unfold dict_keys in *.
    rewrite map_map. simpl. exact Hk.
Qed.

Lemma all_statuses_cover_fleet_witness :
  get_all_taxis_status
    [("taxi_p", Examples.parked_taxi); ("taxi_u", Examples.unnamed_zone_taxi)]
  = [("taxi_p", Some (status_of Examples.parked_taxi));
     ("taxi_u", Some (status_of Examples.unnamed_zone_taxi))] /\
  get_taxi_status
    [("taxi_p", Examples.parked_taxi); ("taxi_u", Examples.unnamed_zone_taxi)]
    "taxi_z" = None.
Proof.
  destruct (all_statuses_cover_fleet
              [("taxi_p", Examples.parked_taxi);
               ("taxi_u", Examples.unnamed_zone_taxi)]) as (Hall & Hmiss).
  - apply nodupb_NoDup. reflexivity.
  - split; [exact Hall|]. apply (Hmiss "taxi_z"). simpl. intuition discriminate.
Defined.



Lemma search_by_hits taxis q :
  search_taxis_by_zone taxis q
  = Ok (map (fun t => get_taxi_status taxis (taxi_id t))
          (filter (zone_hit q) (dict_values taxis))).
Proof. unfold search_taxis_by_zone. now rewrite search_fold. Qed.




End SimMore.

(* ================================================================== *)
(** ** The trace events in the document store                           *)
(* ================================================================== *)

Module CosmosMore.

Import Py Sim Cosmos.
Local Open Scope string_scope.

(** X15. [store_trace_event] of the Cosmos service never raises: it
    returns the identifier of the document when the container accepts
    the document and [None] when the container raises.  So the simulator,
    with this service as its sink, records every trace event as stored
    and never reaches its own error branch. *)
Theorem cosmos_sink_never_raises :
  forall (create_item : TraceDocument -> Result unit)
         (now_iso now_ms created_iso call_iso : string)
         (taxi : TaxiState) (kind zone : string),
    let ev := mkTraceEvent (taxi_id taxi) zone kind
                (current_lat taxi) (current_lng taxi) in
    let document := trace_document now_iso now_ms created_iso (taxi_id taxi)
                      zone kind (current_lat taxi) (current_lng taxi)
                      (Some call_iso) in
    let answer := match create_item document with
                  | Ok _ => Some (doc_id document)
                  | Raise _ => None
                  end in
    sink create_item now_iso now_ms created_iso call_iso ev = Ok answer /\
    _store_trace_event true
      (sink create_item now_iso now_ms created_iso call_iso) taxi kind zone
    = Ok [TraceStored ev answer].
Proof.
  intros create_item now_iso now_ms created_iso call_iso taxi kind zone
    ev document answer.
  assert (H : sink create_item now_iso now_ms created_iso call_iso ev = Ok answer).
  { unfold sink, store_trace_event, answer. simpl. fold document.
    destruct (create_item document); reflexivity. }
  split; [exact H|].
  unfold _store_trace_event. simpl. fold ev. rewrite H. reflexivity.
Qed.

(** X16. What the simulator stores reads back as it was meant: the view
    that formats trace events gives a document written by
    [store_trace_event] for an ['entry'] or an ['exit'] that same kind,
    the vehicle identifier in upper case, and the zone name, position,
    timestamp and identifier of the document. *)
Theorem stored_trace_formats_back :
  forall (now_iso now_ms created_iso vehicle_id zone kind : string)
         (latitude longitude : Q) (timestamp : option string),
    kind = "entry" \/ kind = "exit" ->
    let document := trace_document now_iso now_ms created_iso vehicle_id
                      zone kind latitude longitude timestamp in
    format_trace_event document
    = mkFormattedEvent
        ("trace_" ++ vehicle_id ++ "_" ++ kind ++ "_" ++ now_ms)
        (upper vehicle_id) zone kind
        (match timestamp with Some t => t | None => now_iso end)
        latitude longitude.
Proof.
  intros now_iso now_ms created_iso vehicle_id zone kind latitude longitude
    timestamp [-> | ->] document; reflexivity.
Qed.

Lemma stored_trace_formats_back_witness :
  fmt_type (format_trace_event
              (trace_document "2024-01-01T12:00:00+00:00" "1704110400000"
                 "2024-01-01T12:00:00+00:00" "taxi_a" "Alabama" "entry"
                 32.318231%Q (-86.902298)%Q None)) = "entry" /\
  fmt_taxi_id (format_trace_event
                 (trace_document "2024-01-01T12:00:00+00:00" "1704110400000"
                    "2024-01-01T12:00:00+00:00" "taxi_a" "Alabama" "entry"
                    32.318231%Q (-86.902298)%Q None)) = "TAXI_A".
Proof.
  rewrite (stored_trace_formats_back "2024-01-01T12:00:00+00:00" "1704110400000"
             "2024-01-01T12:00:00+00:00" "taxi_a" "Alabama" "entry"
             32.318231%Q (-86.902298)%Q None (or_introl eq_refl)).
  split; reflexivity.
Defined.

End CosmosMore.

(* ================================================================== *)
(** ** The location-event view                                          *)
(* ================================================================== *)

Module ViewsMore.

Import Py Views.
Local Open Scope string_scope.
Local Open Scope Q_scope.

Section LocationEvent.

Variable classify : Q -> Q -> option string.
Variable parse_float : string -> option Q.
Variable get_vehicle_events : Json -> Result (list (dict Json)).



End LocationEvent.



(** X18. Through the search view the query is never empty: a [zone]
    parameter that is absent or blank is answered 400; any other is
    answered 200 with, in dictionary order, exactly the statuses of the
    taxis whose [current_zone] is not [None] and contains the stripped
    query, letter case ignored, and with their number. *)
Theorem search_view_matches_zone :
  forall (is_space : ascii -> bool) (taxis : dict Sim.TaxiState) (zone : string),
    SimSpec.Consistent taxis ->
    (strip is_space zone = "" ->
     search_taxis_by_zone is_space taxis zone
     = SearchError 400 "Zone parameter is required") /\
    (strip is_space zone <> "" ->
     exists found,
       search_taxis_by_zone is_space taxis zone
       = SearchFound (strip is_space zone) (List.length found) found /\
       found = map (fun t => Some (Sim.status_of t))
                 (filter (SimSpec.zone_hit (strip is_space zone))
                    (dict_values taxis)) /\
       forall s, In s found <->
         exists t z,
           In t (dict_values taxis) /\ s = Some (Sim.status_of t) /\
           Sim.current_zone t = Some z /\
           SimSpec.Substring (lower (strip is_space zone)) (lower z)).
Proof.
  intros is_space taxis zone Hc. unfold search_taxis_by_zone. split.
  - intros ->. reflexivity.
  - intros Hne.
    destruct (String.eqb_spec (strip is_space zone) "") as [E|_]; [contradiction|].
    rewrite SimMore.search_by_hits.
    assert (E : map (fun t => Sim.get_taxi_status taxis (Sim.taxi_id t))
                  (filter (SimSpec.zone_hit (strip is_space zone))
                     (dict_values taxis))
                = map (fun t => Some (Sim.status_of t))
                    (filter (SimSpec.zone_hit (strip is_space zone))
                       (dict_values taxis))).
    { apply map_ext_in. intros t Ht. apply filter_In in Ht.
      apply SimFacts.status_of_stored; [exact Hc | apply Ht]. }
    rewrite E. eexists. split; [reflexivity|]. split; [reflexivity|].
    intros s. rewrite in_map_iff. split.
    + intros (t & Es & Ht). apply filter_In in Ht. destruct Ht as (Hin & Hhit).
      apply SimFacts.zone_hit_in_zone in Hhit.
      apply (SimFacts.in_zone_nonempty_query _ _ Hne) in Hhit.
      destruct Hhit as (z & Hz & Hsub). exists t, z. now repeat split.
    + intros (t & z & Hin & -> & Hz & Hsub). exists t. split; [reflexivity|].
      apply filter_In. split; [exact Hin|].
      apply SimFacts.zone_hit_in_zone.
      apply (SimFacts.in_zone_nonempty_query _ _ Hne). now exists z.
Qed.

Lemma search_view_matches_zone_witness :
  search_taxis_by_zone (fun c => Ascii.eqb c " ")
    [("taxi_u", Examples.unnamed_zone_taxi)] "   "
  = SearchError 400 "Zone parameter is required" /\
  exists found,
    search_taxis_by_zone (fun c => Ascii.eqb c " ")
      [("taxi_a", Examples.taxi_a Examples.offline_classifier_sq)] " island "
    = SearchFound "island" (List.length found) found /\
    found = [Some (Sim.status_of (Examples.taxi_a Examples.offline_classifier_sq))].
Proof.
  split.
  - apply (search_view_matches_zone (fun c => Ascii.eqb c " ")
             [("taxi_u", Examples.unnamed_zone_taxi)] "   ").
    + split; [repeat constructor; intros [] |].
      intros k t [E|[]]. now injection E as <- <-.
    + reflexivity.
  - destruct (search_view_matches_zone (fun c => Ascii.eqb c " ")
                [("taxi_a", Examples.taxi_a Examples.offline_classifier_sq)]
                " island ") as (_ & H).
    + split; [repeat constructor; intros [] |].
      intros k t [E|[]]. now injection E as <- <-.
    + destruct H as (found & Hrun & Hfound & _); [discriminate|].
      exists found. split; [exact Hrun|]. rewrite Hfound. vm_compute. reflexivity.
Defined.

End ViewsMore.
